(** * ASD screening flow: scoring and aggregation rules

    A shallow embedding of the decision logic of the assessment
    components:

    - [BehavioralQuestionnaire.handleNext]  (questionnaire scoring),
    - [EyeTrackingAssessment.stopRecording] (eye-tracking summary and flags),
    - [FacialAnalysisAssessment.stopRecording] (facial summary and flags),
    - [AssessmentResults.calculateOverallRisk] (overall combiner),
    - [ASDAssessment.handleStageComplete]   (stage sequencing).

    JavaScript numbers are IEEE-754 binary64 values; they are modelled by
    the primitive floats of the standard library, so that rounding, NaN and
    the behaviour of [||] on numbers are the ones of the source.  Calls to
    [Math.random()] are inputs of the tick functions: a tick receives the
    values drawn during that tick, in call order. *)

From Stdlib Require Import Floats ZArith Uint63 List Bool Lia.
From stdpp Require Import base decidable countable gmap list strings.
Import ListNotations.

Set Warnings "-inexact-float".

(** ** JavaScript number primitives *)

Module JS.

Definition NaN : float := PrimFloat.nan.

Definition isNaN (x : float) : bool := negb (PrimFloat.eqb x x).

(** [x > y], [x < y], [x <= y] on numbers: false as soon as one side is
    NaN. *)
Definition gt (x y : float) : bool := PrimFloat.ltb y x.
Definition lt (x y : float) : bool := PrimFloat.ltb x y.
Definition le (x y : float) : bool := PrimFloat.leb x y.

(** ToBoolean on a number: [+0], [-0] and NaN are falsy. *)
Definition truthy (x : float) : bool :=
  negb (PrimFloat.eqb x 0%float || isNaN x).

(** [x || 0] on a number. *)
Definition or0 (x : float) : float := if truthy x then x else 0%float.

(** A property read through [?.]: [None] is [undefined]. *)
Definition toNumber (v : option float) : float :=
  match v with Some x => x | None => NaN end.

(** [v || 0] where [v] may be [undefined]. *)
Definition or0_opt (v : option float) : float :=
  match v with Some x => or0 x | None => 0%float end.

(** An array length (or any small natural number) as a number. *)
Definition of_nat (n : nat) : float :=
  PrimFloat.of_uint63 (Uint63.of_Z (Z.of_nat n)).

(** [arr.reduce((a, b) => a + b, 0)]: left to right, starting from 0. *)
Definition sum (l : list float) : float := fold_left PrimFloat.add l 0%float.

End JS.

(** ** Risk levels

    The three components and the combiner all end with the same
    conditional, [s > 0.6 ? 'High' : s > 0.3 ? 'Medium' : 'Low']. *)

Inductive RiskLevel := Low | Medium | High.

Definition RiskLevel_eqb (a b : RiskLevel) : bool :=
  match a, b with
  | Low, Low | Medium, Medium | High, High => true
  | _, _ => false
  end.

Definition riskLevelOf (score : float) : RiskLevel :=
  if JS.gt score 0.6%float then High
  else if JS.gt score 0.3%float then Medium
  else Low.

(** [Object.values(asdIndicators).filter(Boolean).length /
     Object.keys(asdIndicators).length] *)
Definition riskScoreOf (values : list bool) : float :=
  (JS.of_nat (length (List.filter (fun b : bool => b) values))
   / JS.of_nat (length values))%float.

(** ** Eye tracking (EyeTrackingAssessment) *)

Module EyeTracking.

Record EyeMetrics := {
  fixationDuration : list float;
  saccadicMovements : float;
  blinkRate : float;
  gazeStability : float
}.

Definition RECORDING_DURATION : float := 30%float.

(** The value [startRecording] stores in [metricsRef.current]. *)
Definition initialMetrics : EyeMetrics :=
  {| fixationDuration := [];
     saccadicMovements := 0%float;
     blinkRate := 0%float;
     gazeStability := 0%float |}.

(** The four [Math.random()] results of one tick, in call order. *)
Record Draws := {
  r_fixation : float;
  r_saccade : float;
  r_blink : float;
  r_gaze : float
}.

Definition simulateEyeTracking (currentMetrics : EyeMetrics) (d : Draws)
  : EyeMetrics :=
  let fixationTime := (r_fixation d * 2000 + 500)%float in
  {| fixationDuration := fixationDuration currentMetrics ++ [fixationTime];
     saccadicMovements :=
       if JS.gt (r_saccade d) 0.7%float
       then (saccadicMovements currentMetrics + 1)%float
       else saccadicMovements currentMetrics;
     blinkRate :=
       if JS.gt (r_blink d) 0.95%float
       then (blinkRate currentMetrics + 1)%float
       else blinkRate currentMetrics;
     gazeStability := (r_gaze d * 0.8 + 0.1)%float |}.

(** The accumulator after the ticks of one recording, oldest first. *)
Definition record (ticks : list Draws) : EyeMetrics :=
  fold_left simulateEyeTracking ticks initialMetrics.

Record Indicators := {
  longFixations : bool;
  lowSaccadicRate : bool;
  atypicalBlinking : bool;
  poorGazeStability : bool
}.

(** [Object.values(asdIndicators)], in key order. *)
Definition values (i : Indicators) : list bool :=
  [longFixations i; lowSaccadicRate i; atypicalBlinking i;
   poorGazeStability i].

(** The [metrics] object handed to [onComplete]. *)
Record Metrics := {
  avgFixationDuration : float;
  saccadicRate : float;
  blinkRatePerMinute : float;
  metrics_gazeStability : float;
  recordingDuration : float
}.

Record Result := {
  metrics : Metrics;
  indicators : Indicators;
  riskScore : float;
  riskLevel : RiskLevel
}.

Definition stopRecording (finalMetrics : EyeMetrics) : Result :=
  let avgFixationDuration :=
    JS.or0 (JS.sum (fixationDuration finalMetrics)
            / JS.of_nat (length (fixationDuration finalMetrics)))%float in
  let saccadicRate :=
    (saccadicMovements finalMetrics / (RECORDING_DURATION / 60))%float in
  let blinkRatePerMinute :=
    (blinkRate finalMetrics / RECORDING_DURATION * 60)%float in
  let asdIndicators :=
    {| longFixations := JS.gt avgFixationDuration 1200%float;
       lowSaccadicRate := JS.lt saccadicRate 30%float;
       atypicalBlinking :=
         JS.lt blinkRatePerMinute 10%float
         || JS.gt blinkRatePerMinute 25%float;
       poorGazeStability := JS.lt (gazeStability finalMetrics) 0.6%float |} in
  let riskScore := riskScoreOf (values asdIndicators) in
  {| metrics :=
       {| avgFixationDuration := avgFixationDuration;
          saccadicRate := saccadicRate;
          blinkRatePerMinute := blinkRatePerMinute;
          metrics_gazeStability := gazeStability finalMetrics;
          recordingDuration := RECORDING_DURATION |};
     indicators := asdIndicators;
     riskScore := riskScore;
     riskLevel := riskLevelOf riskScore |}.

End EyeTracking.

(** ** Facial analysis (FacialAnalysisAssessment) *)

Module FacialAnalysis.

(** [emotionDetection] is an object with string keys; its entries are
    kept in insertion order, the order of [Object.values] and
    [Object.entries]. *)
Record FacialMetrics := {
  emotionDetection : list (string * float);
  facialLandmarks : float;
  eyeContactFrequency : float;
  microExpressions : list string;
  symmetryScore : float
}.

Definition RECORDING_DURATION : float := 45%float.

Definition emotions : list string :=
  ["neutral"; "happy"; "sad"; "surprised"; "angry"; "fearful"]%string.

Definition microExpressionLabels : list string :=
  ["eyebrow_raise"; "lip_compression"; "eye_squint"; "smile_onset"]%string.

Definition initialMetrics : FacialMetrics :=
  {| emotionDetection := map (fun e => (e, 0%float)) emotions;
     facialLandmarks := 0%float;
     eyeContactFrequency := 0%float;
     microExpressions := [];
     symmetryScore := 0%float |}.

(** [obj[key]]: [None] is [undefined]. *)
Fixpoint get (key : string) (obj : list (string * float)) : option float :=
  match obj with
  | [] => None
  | (k, v) :: rest => if String.eqb k key then Some v else get key rest
  end.

(** [obj[key]++]: on a missing key, [undefined + 1] is NaN and the key
    is appended. *)
Fixpoint increment (key : string) (obj : list (string * float))
  : list (string * float) :=
  match obj with
  | [] => [(key, JS.NaN)]
  | (k, v) :: rest =>
      if String.eqb k key then (k, (v + 1)%float) :: rest
      else (k, v) :: increment key rest
  end.

(** [arr.includes(x)] on strings. *)
Definition includes (x : string) (arr : list string) : bool :=
  existsb (String.eqb x) arr.

(** One tick's random values, in call order.  [r_emotion] and
    [r_microIndex] are the results of
    [Math.floor(Math.random() * arr.length)], an index below the length
    of the array; [r_microIndex] is drawn only when [r_micro > 0.8].
    The default of [nth] stands for the [undefined] of an out-of-range
    read, which no run produces. *)
Record Draws := {
  r_emotion : nat;
  r_eyeContact : float;
  r_micro : float;
  r_microIndex : nat;
  r_symmetry : float
}.

Definition simulateFacialAnalysis (currentMetrics : FacialMetrics)
  (d : Draws) : FacialMetrics :=
  let dominantEmotion := nth (r_emotion d) emotions "undefined"%string in
  {| emotionDetection :=
       increment dominantEmotion (emotionDetection currentMetrics);
     facialLandmarks := 468%float;
     eyeContactFrequency :=
       if JS.gt (r_eyeContact d) 0.4%float
       then (eyeContactFrequency currentMetrics + 1)%float
       else eyeContactFrequency currentMetrics;
     microExpressions :=
       if JS.gt (r_micro d) 0.8%float then
         let expression :=
           nth (r_microIndex d) microExpressionLabels "undefined"%string in
         if negb (includes expression (microExpressions currentMetrics))
         then microExpressions currentMetrics ++ [expression]
         else microExpressions currentMetrics
       else microExpressions currentMetrics;
     symmetryScore := (r_symmetry d * 0.3 + 0.7)%float |}.

Definition record (ticks : list Draws) : FacialMetrics :=
  fold_left simulateFacialAnalysis ticks initialMetrics.

Record EmotionShare := {
  emotion : string;
  percentage : float
}.

Record Indicators := {
  limitedEmotionalRange : bool;
  lowEyeContact : bool;
  reducedMicroExpressions : bool;
  facialAsymmetry : bool;
  neutralExpressionDominance : bool
}.

Definition values (i : Indicators) : list bool :=
  [limitedEmotionalRange i; lowEyeContact i; reducedMicroExpressions i;
   facialAsymmetry i; neutralExpressionDominance i].

Record Metrics := {
  emotionDistribution : list EmotionShare;
  eyeContactRate : float;
  metrics_microExpressions : list string;
  facialSymmetry : float;
  landmarksDetected : float;
  recordingDuration : float
}.

Record Result := {
  metrics : Metrics;
  indicators : Indicators;
  riskScore : float;
  riskLevel : RiskLevel
}.

Definition totalEmotions (finalMetrics : FacialMetrics) : float :=
  JS.sum (map snd (emotionDetection finalMetrics)).

Definition stopRecording (finalMetrics : FacialMetrics) : Result :=
  let totalEmotions := totalEmotions finalMetrics in
  let emotionDistribution :=
    map (fun '(emotion, count) =>
           {| emotion := emotion;
              percentage :=
                if JS.gt totalEmotions 0%float
                then (count / totalEmotions * 100)%float
                else 0%float |})
        (emotionDetection finalMetrics) in
  let eyeContactRate :=
    (eyeContactFrequency finalMetrics / RECORDING_DURATION * 100)%float in
  let asdIndicators :=
    {| limitedEmotionalRange :=
         (length (List.filter (fun e => JS.gt (percentage e) 10%float)
                              emotionDistribution) <? 3)%nat;
       lowEyeContact := JS.lt eyeContactRate 40%float;
       reducedMicroExpressions :=
         (length (microExpressions finalMetrics) <? 2)%nat;
       facialAsymmetry := JS.lt (symmetryScore finalMetrics) 0.8%float;
       neutralExpressionDominance :=
         JS.gt (JS.toNumber (get "neutral" (emotionDetection finalMetrics))
                / totalEmotions)%float 0.7%float |} in
  let riskScore := riskScoreOf (values asdIndicators) in
  {| metrics :=
       {| emotionDistribution := emotionDistribution;
          eyeContactRate := eyeContactRate;
          metrics_microExpressions := microExpressions finalMetrics;
          facialSymmetry := symmetryScore finalMetrics;
          landmarksDetected := facialLandmarks finalMetrics;
          recordingDuration := RECORDING_DURATION |};
     indicators := asdIndicators;
     riskScore := riskScore;
     riskLevel := riskLevelOf riskScore |}.

End FacialAnalysis.

(** ** Behavioral questionnaire (BehavioralQuestionnaire) *)

Module Questionnaire.

(** A question's [id] and [category]; every question offers the answer
    values 0, 1, 2 and 3. *)
Record Question := {
  id : nat;
  category : string
}.

Definition questions : list Question :=
  [ {| id := 1; category := "Social Communication" |};
    {| id := 2; category := "Social Communication" |};
    {| id := 3; category := "Repetitive Behaviors" |};
    {| id := 4; category := "Sensory Processing" |};
    {| id := 5; category := "Social Interaction" |};
    {| id := 6; category := "Communication" |} ]%string.

Record CategoryScore := {
  cs_category : string;
  score : nat;
  maxScore : nat;
  percentage : float
}.

(** The object handed to [onComplete].  The answers are the integers
    [parseInt] returns for the option values; their sums are exact in
    binary64, so they are kept as natural numbers and turned into
    numbers where the source divides. *)
Record Result := {
  answers : gmap nat nat;
  categoryScores : list CategoryScore;
  totalScore : nat;
  maxTotalScore : nat;
  riskLevel : RiskLevel
}.

(** [if (!acc[category]) acc[category] = []; acc[category].push(score)] *)
Fixpoint push (category : string) (score : nat)
  (acc : list (string * list nat)) : list (string * list nat) :=
  match acc with
  | [] => [(category, [score])]
  | (c, scores) :: rest =>
      if String.eqb c category then (c, scores ++ [score]) :: rest
      else (c, scores) :: push category score rest
  end.

Definition sumScores (scores : list nat) : nat :=
  fold_left Nat.add scores 0%nat.

Definition complete (answers : gmap nat nat) : Result :=
  let categoryScores :=
    fold_left (fun acc question =>
                 push (category question)
                      (default 0%nat (answers !! id question)) acc)
              questions [] in
  let results :=
    map (fun '(category, scores) =>
           {| cs_category := category;
              score := sumScores scores;
              maxScore := length scores * 3;
              percentage :=
                (JS.of_nat (sumScores scores)
                 / JS.of_nat (length scores * 3) * 100)%float |})
        categoryScores in
  let totalScore := map_fold (fun _ score sum => (sum + score)%nat) 0%nat answers in
  let maxTotalScore := (length questions * 3)%nat in
  {| answers := answers;
     categoryScores := results;
     totalScore := totalScore;
     maxTotalScore := maxTotalScore;
     riskLevel :=
       if JS.gt (JS.of_nat totalScore / JS.of_nat maxTotalScore)%float
                0.6%float then High
       else if JS.gt (JS.of_nat totalScore / JS.of_nat maxTotalScore)%float
                     0.3%float then Medium
       else Low |}.

(** [handleNext]: the next question index, or the completed result. *)
Definition handleNext (currentQuestion : nat) (answers : gmap nat nat)
  : nat + Result :=
  if (currentQuestion <? length questions - 1)%nat
  then inl (currentQuestion + 1)%nat
  else inr (complete answers).

End Questionnaire.

(** ** Stages and stage payloads *)

Inductive AssessmentStage :=
  intro | questionnaire | eyeTracking | facialAnalysis | results.

#[global] Instance AssessmentStage_eq_dec : EqDecision AssessmentStage.
Proof. solve_decision. Defined.

#[global] Instance AssessmentStage_countable : Countable AssessmentStage.
Proof.
  refine (inj_countable'
            (fun s => match s with
                      | intro => 0 | questionnaire => 1 | eyeTracking => 2
                      | facialAnalysis => 3 | results => 4
                      end)%nat
            (fun n => match n with
                      | 0 => intro | 1 => questionnaire | 2 => eyeTracking
                      | 3 => facialAnalysis | _ => results
                      end)%nat _).
  intros []; reflexivity.
Defined.

(** [onComplete] takes [any]; the values that reach it are the objects
    built by the three stage components. *)
Inductive StageData :=
| QuestionnaireData (r : Questionnaire.Result)
| EyeTrackingData (r : EyeTracking.Result)
| FacialAnalysisData (r : FacialAnalysis.Result).

(** The component that builds a payload. *)
Definition origin (d : StageData) : AssessmentStage :=
  match d with
  | QuestionnaireData _ => questionnaire
  | EyeTrackingData _ => eyeTracking
  | FacialAnalysisData _ => facialAnalysis
  end.

(** ** Overall result (AssessmentResults) *)

Module Results.

(** [d?.totalScore], [d?.maxTotalScore], [d?.riskScore]: [None] is
    [undefined], for a missing stage as for a missing property. *)
Definition totalScore (d : option StageData) : option float :=
  match d with
  | Some (QuestionnaireData r) => Some (JS.of_nat (Questionnaire.totalScore r))
  | _ => None
  end.

Definition maxTotalScore (d : option StageData) : option float :=
  match d with
  | Some (QuestionnaireData r) =>
      Some (JS.of_nat (Questionnaire.maxTotalScore r))
  | _ => None
  end.

Definition riskScore (d : option StageData) : option float :=
  match d with
  | Some (EyeTrackingData r) => Some (EyeTracking.riskScore r)
  | Some (FacialAnalysisData r) => Some (FacialAnalysis.riskScore r)
  | _ => None
  end.

Definition riskScores (data : gmap AssessmentStage StageData) : list float :=
  [ JS.or0 (JS.toNumber (totalScore (data !! questionnaire))
            / JS.toNumber (maxTotalScore (data !! questionnaire)))%float;
    JS.or0_opt (riskScore (data !! eyeTracking));
    JS.or0_opt (riskScore (data !! facialAnalysis)) ].

Definition avgRisk (data : gmap AssessmentStage StageData) : float :=
  (JS.sum (riskScores data) / JS.of_nat (length (riskScores data)))%float.

Record OverallRisk := {
  level : RiskLevel;
  color : string;
  description : string
}.

Definition calculateOverallRisk (data : gmap AssessmentStage StageData)
  : OverallRisk :=
  let avgRisk := avgRisk data in
  if JS.gt avgRisk 0.6%float then
    {| level := High; color := "destructive";
       description :=
         "Multiple indicators suggest potential ASD characteristics" |}
  else if JS.gt avgRisk 0.3%float then
    {| level := Medium; color := "warning";
       description :=
         "Some indicators present, further evaluation recommended" |}
  else
    {| level := Low; color := "success";
       description := "Minimal indicators detected in this assessment" |}.

End Results.

(** ** Stage sequencing (ASDAssessment) *)

Module Session.

Record State := {
  currentStage : AssessmentStage;
  assessmentData : gmap AssessmentStage StageData;
  progress : float
}.

Definition initial : State :=
  {| currentStage := intro; assessmentData := ∅; progress := 0%float |}.

(** The [id]s of [stages], in order. *)
Definition stages : list AssessmentStage :=
  [questionnaire; eyeTracking; facialAnalysis].

(** [stages.findIndex(stage => stage.id === x)]: -1 when absent. *)
Fixpoint findIndexFrom (i : Z) (l : list AssessmentStage)
  (x : AssessmentStage) : Z :=
  match l with
  | [] => (-1)%Z
  | y :: rest =>
      if decide (y = x) then i else findIndexFrom (i + 1)%Z rest x
  end.

Definition findIndex (x : AssessmentStage) : Z := findIndexFrom 0%Z stages x.

(** [updateProgress], with the [currentStage] of the render that
    created the handler. *)
Definition updateProgress (currentStage : AssessmentStage) : float :=
  let stageIndex := findIndex currentStage in
  (JS.of_nat (Z.to_nat (stageIndex + 1)) / JS.of_nat (length stages)
   * 100)%float.

(** The "Begin Assessment" button. *)
Definition begin (s : State) : State :=
  {| currentStage := questionnaire;
     assessmentData := assessmentData s;
     progress := progress s |}.

(** [handleStageComplete].  The result is [None] if reading
    [stages[currentIndex + 1].id] throws, that is if the index is out of
    range. *)
Definition handleStageComplete (s : State) (stageData : StageData)
  : option State :=
  let data := <[currentStage s := stageData]> (assessmentData s) in
  let currentIndex := findIndex (currentStage s) in
  if (currentIndex <? Z.of_nat (length stages) - 1)%Z then
    match stages !! Z.to_nat (currentIndex + 1) with
    | Some nextStage =>
        Some {| currentStage := nextStage;
                assessmentData := data;
                progress := updateProgress (currentStage s) |}
    | None => None
    end
  else
    Some {| currentStage := results;
            assessmentData := data;
            progress := 100%float |}.

End Session.

(** ** Example payloads

    Stage results carrying a given score, for evaluating the combiner on
    explicit inputs. *)

Definition questionnaireWith (total max : nat) : StageData :=
  QuestionnaireData
    {| Questionnaire.answers := ∅;
       Questionnaire.categoryScores := [];
       Questionnaire.totalScore := total;
       Questionnaire.maxTotalScore := max;
       Questionnaire.riskLevel :=
         riskLevelOf (JS.of_nat total / JS.of_nat max)%float |}.

Definition eyeTrackingWith (score : float) : StageData :=
  EyeTrackingData
    {| EyeTracking.metrics :=
         EyeTracking.metrics
           (EyeTracking.stopRecording EyeTracking.initialMetrics);
       EyeTracking.indicators :=
         EyeTracking.indicators
           (EyeTracking.stopRecording EyeTracking.initialMetrics);
       EyeTracking.riskScore := score;
       EyeTracking.riskLevel := riskLevelOf score |}.

Definition facialAnalysisWith (score : float) : StageData :=
  FacialAnalysisData
    {| FacialAnalysis.metrics :=
         FacialAnalysis.metrics
           (FacialAnalysis.stopRecording FacialAnalysis.initialMetrics);
       FacialAnalysis.indicators :=
         FacialAnalysis.indicators
           (FacialAnalysis.stopRecording FacialAnalysis.initialMetrics);
       FacialAnalysis.riskScore := score;
       FacialAnalysis.riskLevel := riskLevelOf score |}.

(** The [data] prop with the three scores [q = total / max], [e], [f]. *)
Definition dataWith (total max : nat) (e f : float)
  : gmap AssessmentStage StageData :=
  <[facialAnalysis := facialAnalysisWith f]>
    (<[eyeTracking := eyeTrackingWith e]>
       (<[questionnaire := questionnaireWith total max]> ∅)).

(** ** Finite checks

    The score of an indicator set depends only on the number of flags and
    the number of set flags; the properties of the scores of small sets
    are checked by evaluation. *)

Definition score_ok (k n : nat) : bool :=
  let s := (JS.of_nat k / JS.of_nat n)%float in
  JS.le 0%float s && JS.le s 1%float
  && Bool.eqb (JS.le s 0.6%float) (negb (JS.gt s 0.6%float))
  && Bool.eqb (JS.le s 0.3%float) (negb (JS.gt s 0.3%float))
  && implb (JS.gt s 0.6%float) (JS.gt s 0.3%float).

Definition scores_ok (bound : nat) : bool :=
  forallb (fun n => forallb (fun k => score_ok k n) (seq 0 (S n)))
          (seq 1 bound).

(** Counting up to [bound] in binary64 is exact. *)
Definition counting_exact (bound : nat) : bool :=
  forallb (fun n => PrimFloat.Leibniz.eqb (JS.of_nat n + 1)%float
                                          (JS.of_nat (S n)))
          (seq 0 bound).

Ltac float_neq :=
  let H := fresh in
  intro H; apply (f_equal Prim2SF) in H; vm_compute in H; discriminate H.

(** ** Questionnaire navigation (BehavioralQuestionnaire)

    The component's state and its three handlers, driven by the events
    of its controls: a radio item of the current question, the Next
    button (disabled while the current question has no answer) and the
    Previous button (disabled on the first question). *)

Module QuestionnaireUI.

Record State := {
  currentQuestion : nat;
  answers : gmap nat nat
}.

Definition initial : State := {| currentQuestion := 0; answers := ∅ |}.

(** The [value]s of the [options] of every question. *)
Definition optionValues : list nat := [0; 1; 2; 3]%nat.

(** [questions[currentQuestion]]: [None] is [undefined]. *)
Definition current (s : State) : option Questionnaire.Question :=
  Questionnaire.questions !! currentQuestion s.

Definition handleAnswer (questionId value : nat) (s : State) : State :=
  {| currentQuestion := currentQuestion s;
     answers := <[questionId := value]> (answers s) |}.

Definition handlePrevious (s : State) : State :=
  if (0 <? currentQuestion s)%nat
  then {| currentQuestion := currentQuestion s - 1; answers := answers s |}
  else s.

(** [answers[current.id] !== undefined] *)
Definition hasAnswer (s : State) (current : Questionnaire.Question) : bool :=
  bool_decide (is_Some (answers s !! Questionnaire.id current)).

Inductive Event :=
| SelectOption (i : nat)   (* the i-th radio item of the current question *)
| ClickNext
| ClickPrevious.

(** One event.  [None]: rendering throws because [current] is
    [undefined]; [Some (inr r)]: [onComplete] is called with [r]. *)
Definition step (s : State) (e : Event)
  : option (State + Questionnaire.Result) :=
  match current s with
  | None => None
  | Some q =>
      match e with
      | SelectOption i =>
          match optionValues !! i with
          | Some value => Some (inl (handleAnswer (Questionnaire.id q) value s))
          | None => Some (inl s)
          end
      | ClickNext =>
          if hasAnswer s q then
            match Questionnaire.handleNext (currentQuestion s) (answers s) with
            | inl next =>
                Some (inl {| currentQuestion := next; answers := answers s |})
            | inr r => Some (inr r)
            end
          else Some (inl s)
      | ClickPrevious =>
          if (currentQuestion s =? 0)%nat then Some (inl s)
          else Some (inl (handlePrevious s))
      end
  end.

(** The events of a session, until [onComplete] is called. *)
Fixpoint run (s : State) (events : list Event)
  : option (State + Questionnaire.Result) :=
  match events with
  | [] => Some (inl s)
  | e :: rest =>
      match step s e with
      | Some (inl s') => run s' rest
      | outcome => outcome
      end
  end.

End QuestionnaireUI.

(** ** Recording timer (EyeTrackingAssessment, FacialAnalysisAssessment)

    The updater given to [setRecordingTime] by the interval callback of
    [startRecording]; the flag tells whether it calls [stopRecording]. *)

Module Timer.

Definition tick (RECORDING_DURATION prev : nat) : nat * bool :=
  let newTime := (prev + 1)%nat in
  if (RECORDING_DURATION <=? newTime)%nat then (RECORDING_DURATION, true)
  else (newTime, false).

(** The displayed time after [n] interval callbacks. *)
Fixpoint after (RECORDING_DURATION n : nat) : nat :=
  match n with
  | 0%nat => 0%nat
  | S n' => fst (tick RECORDING_DURATION (after RECORDING_DURATION n'))
  end.

End Timer.

(** ** The flow of the application (ASDAssessment) *)

Module Flow.

Inductive Component :=
| Introduction
| BehavioralQuestionnaire
| EyeTrackingAssessment
| FacialAnalysisAssessment
| AssessmentResults.

(** [renderCurrentStage] *)
Definition renderCurrentStage (currentStage : AssessmentStage) : Component :=
  match currentStage with
  | questionnaire => BehavioralQuestionnaire
  | eyeTracking => EyeTrackingAssessment
  | facialAnalysis => FacialAnalysisAssessment
  | results => AssessmentResults
  | intro => Introduction
  end.

(** The payloads a component hands to its [onComplete] prop; only the
    three stage components are given one. *)
Definition builds (c : Component) (d : StageData) : bool :=
  match c, d with
  | BehavioralQuestionnaire, QuestionnaireData _ => true
  | EyeTrackingAssessment, EyeTrackingData _ => true
  | FacialAnalysisAssessment, FacialAnalysisData _ => true
  | _, _ => false
  end.

(** The states the application reaches: the Begin button, then
    completions signalled by the component on screen. *)
Inductive reachable : Session.State -> Prop :=
| reachable_begin : reachable (Session.begin Session.initial)
| reachable_complete s d s' :
    reachable s ->
    builds (renderCurrentStage (Session.currentStage s)) d = true ->
    Session.handleStageComplete s d = Some s' ->
    reachable s'.

End Flow.

(** ** Prediction factors (AssessmentResults.getPredictionReasoning)

    A factor's [reasoning] is a formatted text; it is left out, except
    that formatting an [undefined] number throws.  [None] is a thrown
    TypeError. *)

Module Reasoning.

Record Factor := {
  factor : string;
  impact : RiskLevel;
  confidence : float
}.

Definition questionnaireFactor (d : StageData) : Factor :=
  let behavioralScore :=
    (JS.toNumber (Results.totalScore (Some d))
     / JS.toNumber (Results.maxTotalScore (Some d)) * 100)%float in
  {| factor := "Behavioral Questionnaire";
     impact := if JS.gt behavioralScore 60%float then High
               else if JS.gt behavioralScore 30%float then Medium else Low;
     confidence := if JS.gt behavioralScore 60%float then 85%float
                   else if JS.gt behavioralScore 30%float then 65%float
                   else 90%float |}.

(** [eyeTracking.metrics.avgFixationDuration] is read, and formatted
    with [toFixed]: a payload of another shape throws. *)
Definition eyeTrackingFactor (d : StageData) : option Factor :=
  match d with
  | EyeTrackingData r =>
      let avgFixation :=
        EyeTracking.avgFixationDuration (EyeTracking.metrics r) in
      let gazeStability :=
        (EyeTracking.metrics_gazeStability (EyeTracking.metrics r) * 100)%float in
      let eyeScore :=
        if JS.gt avgFixation 1200%float || JS.lt gazeStability 70%float
        then High
        else if JS.gt avgFixation 800%float || JS.lt gazeStability 85%float
        then Medium
        else Low in
      Some {| factor := "Eye Tracking Analysis";
              impact := eyeScore;
              confidence := match eyeScore with
                            | High => 82%float
                            | Medium => 68%float
                            | Low => 88%float
                            end |}
  | _ => None
  end.

(** [facialAnalysis.metrics.emotionDistribution.length] is read: a
    payload of another shape throws. *)
Definition facialAnalysisFactor (d : StageData) : option Factor :=
  match d with
  | FacialAnalysisData r =>
      let eyeContact :=
        FacialAnalysis.eyeContactRate (FacialAnalysis.metrics r) in
      let emotionCount :=
        length (FacialAnalysis.emotionDistribution (FacialAnalysis.metrics r)) in
      let facialScore :=
        if JS.lt eyeContact 40%float || (emotionCount <? 3)%nat then High
        else if JS.lt eyeContact 60%float || (emotionCount <? 4)%nat
        then Medium
        else Low in
      Some {| factor := "Facial Expression Analysis";
              impact := facialScore;
              confidence := match facialScore with
                            | High => 79%float
                            | Medium => 72%float
                            | Low => 86%float
                            end |}
  | _ => None
  end.

Definition getPredictionReasoning (data : gmap AssessmentStage StageData)
  : option (list Factor) :=
  let factors := [] in
  let factors :=
    match data !! questionnaire with
    | Some d => factors ++ [questionnaireFactor d]
    | None => factors
    end in
  match
    match data !! eyeTracking with
    | Some d => option_map (fun f => factors ++ [f]) (eyeTrackingFactor d)
    | None => Some factors
    end
  with
  | None => None
  | Some factors =>
      match data !! facialAnalysis with
      | Some d => option_map (fun f => factors ++ [f]) (facialAnalysisFactor d)
      | None => Some factors
      end
  end.

End Reasoning.

(** ** Further finite checks *)

Definition levelRank (l : RiskLevel) : nat :=
  match l with Low => 0 | Medium => 1 | High => 2 end.

(** The level of a questionnaire total out of 18, by integer cut-offs. *)
Definition levelOfTotal (total : nat) : RiskLevel :=
  if (11 <=? total)%nat then High
  else if (6 <=? total)%nat then Medium else Low.

(** The level of an indicator set from its numbers of set flags. *)
Definition levelOfFour (k : nat) : RiskLevel :=
  if (3 <=? k)%nat then High else if (2 <=? k)%nat then Medium else Low.

Definition levelOfFive (k : nat) : RiskLevel :=
  if (4 <=? k)%nat then High else if (2 <=? k)%nat then Medium else Low.

Definition total_ok (t : nat) : bool :=
  let ratio := (JS.of_nat t / JS.of_nat 18)%float in
  RiskLevel_eqb (riskLevelOf ratio) (levelOfTotal t)
  && RiskLevel_eqb
       (if JS.gt (ratio * 100)%float 60%float then High
        else if JS.gt (ratio * 100)%float 30%float then Medium else Low)
       (levelOfTotal t).

Definition percentage_ok (s m : nat) : bool :=
  let p := (JS.of_nat s / JS.of_nat m * 100)%float in
  JS.le 0%float p && JS.le p 100%float.

Definition count_flags_ok (n : nat) : bool :=
  Bool.eqb (JS.lt (JS.of_nat n / (30 / 60))%float 30%float) (n <? 15)%nat
  && Bool.eqb (JS.lt (JS.of_nat n / 30 * 60)%float 10%float
               || JS.gt (JS.of_nat n / 30 * 60)%float 25%float)
              ((n <? 5)%nat || (12 <? n)%nat)
  && Bool.eqb (JS.lt (JS.of_nat n / 45 * 100)%float 40%float) (n <? 18)%nat.

(** The overall score for the scores t/18, k/4 and j/5. *)
Definition avgOfCounts (t k j : nat) : float :=
  (JS.sum [ JS.or0 (JS.of_nat t / JS.of_nat 18);
            JS.or0 (JS.of_nat k / JS.of_nat 4);
            JS.or0 (JS.of_nat j / JS.of_nat 5) ]
   / JS.of_nat 3)%float.

Definition combine_ok (t k j : nat) : bool :=
  let a := avgOfCounts t k j in
  let lq := levelRank (riskLevelOf (JS.of_nat t / JS.of_nat 18)%float) in
  let lk := levelRank (riskLevelOf (JS.of_nat k / JS.of_nat 4)%float) in
  let lf := levelRank (riskLevelOf (JS.of_nat j / JS.of_nat 5)%float) in
  JS.le 0%float a && JS.le a 1%float
  && (Nat.min lq (Nat.min lk lf) <=? levelRank (riskLevelOf a))%nat
  && (levelRank (riskLevelOf a) <=? Nat.max lq (Nat.max lk lf))%nat.

Definition forall_upto (n : nat) (p : nat -> bool) : bool :=
  forallb p (seq 0 (S n)).

(** Adding two counts whose sum is at most [bound] is exact. *)
Definition adding_exact (bound : nat) : bool :=
  forall_upto bound (fun a =>
    forall_upto (bound - a) (fun b =>
      PrimFloat.Leibniz.eqb (JS.of_nat a + JS.of_nat b)%float
                            (JS.of_nat (a + b)))).

(** ** Invariants of the questionnaire navigation *)

(** Every stored answer is an option value of one of the questions. *)
Definition answersValid (answers : gmap nat nat) : Prop :=
  forall k v,
    answers !! k = Some v ->
    (v <= 3)%nat
    /\ exists q, q ∈ Questionnaire.questions /\ Questionnaire.id q = k.

(** The first [n] questions are answered. *)
Definition answeredBefore (n : nat) (answers : gmap nat nat) : Prop :=
  forall i q,
    (i < n)%nat ->
    Questionnaire.questions !! i = Some q ->
    is_Some (answers !! Questionnaire.id q).

Definition navigationInvariant (s : QuestionnaireUI.State) : Prop :=
  (QuestionnaireUI.currentQuestion s < length Questionnaire.questions)%nat
  /\ answersValid (QuestionnaireUI.answers s)
  /\ answeredBefore (QuestionnaireUI.currentQuestion s)
                    (QuestionnaireUI.answers s).

(** The emotion tallies holding the counts [c0] ... [c5]. *)
Definition tallies (c0 c1 c2 c3 c4 c5 : nat) : list (string * float) :=
  [ ("neutral", JS.of_nat c0); ("happy", JS.of_nat c1);
    ("sad", JS.of_nat c2); ("surprised", JS.of_nat c3);
    ("angry", JS.of_nat c4); ("fearful", JS.of_nat c5) ]%string.

(** ** Handlers held by the stage components (ASDAssessment)

    A stage component calls the [handleStageComplete] of a render in
    which it was on screen: in that closure [currentStage], also inside
    [updateProgress], is the component's own stage, and only [prev], the
    stored mapping, is read from the live state.  The components call it
    from a timeout that is never cleared, so a call may arrive after the
    pointer has moved on. *)

Module LateCompletion.

Definition handlerOf (captured : AssessmentStage) (s : Session.State)
  (stageData : StageData) : option Session.State :=
  Session.handleStageComplete
    {| Session.currentStage := captured;
       Session.assessmentData := Session.assessmentData s;
       Session.progress := Session.progress s |}
    stageData.

(** The states reached when completions may also come from the component
    of a stage that has already completed. *)
Inductive reachable : Session.State -> Prop :=
| reachable_begin : reachable (Session.begin Session.initial)
| reachable_complete s captured d s' :
    reachable s ->
    captured = Session.currentStage s
    \/ is_Some (Session.assessmentData s !! captured) ->
    Flow.builds (Flow.renderCurrentStage captured) d = true ->
    handlerOf captured s d = Some s' ->
    reachable s'.

End LateCompletion.

(** For a tally [c] out of [n] ticks, the share tests of the facial
    classifier against their integer forms. *)
Definition share_ok (c n : nat) : bool :=
  Bool.eqb (JS.gt (if JS.gt (JS.of_nat n) 0%float
                   then (JS.of_nat c / JS.of_nat n * 100)%float
                   else 0%float) 10%float)
           (n <? 10 * c)%nat
  && Bool.eqb (JS.gt (JS.of_nat c / JS.of_nat n)%float 0.7%float)
              (7 * n <? 10 * c)%nat
  && Bool.eqb (JS.gt (JS.of_nat n) 0%float) (0 <? n)%nat.

Definition shares_ok (bound : nat) : bool :=
  forall_upto bound (fun n => forall_upto n (fun c => share_ok c n)).

(** * Properties *)

(** ** Binary64 facts used below *)

Section Binary64.

Local Open Scope float_scope.

Lemma SFadd_comm prec emax (x y : spec_float) :
  SFadd prec emax x y = SFadd prec emax y x.
Proof.
  destruct x as [sx | sx | | sx mx ex], y as [sy | sy | | sy my ey];
    unfold SFadd; try reflexivity.
  - destruct sx, sy; reflexivity.
  - destruct sx, sy; reflexivity.
  - rewrite (Z.min_comm ey ex).
    rewrite (Z.add_comm (cond_Zopp sy _)).
    reflexivity.
Qed.

Lemma float_add_comm (x y : float) : x + y = y + x.
Proof.
  apply Prim2SF_inj. rewrite !FloatAxioms.add_spec. apply SFadd_comm.
Qed.

Lemma float_add_0_l (x : float) :
  Prim2SF x <> S754_zero true -> 0 + x = x.
Proof.
  intros Hx. apply Prim2SF_inj. rewrite FloatAxioms.add_spec.
  change (Prim2SF 0) with (S754_zero false).
  destruct (Prim2SF x) as [[] | | |]; try reflexivity. congruence.
Qed.

Lemma float_add_0_r (x : float) :
  Prim2SF x <> S754_zero true -> x + 0 = x.
Proof.
  intros Hx. rewrite float_add_comm. now apply float_add_0_l.
Qed.

Lemma or0_not_negative_zero (x : float) :
  Prim2SF (JS.or0 x) <> S754_zero true.
Proof.
  unfold JS.or0, JS.truthy.
  destruct (PrimFloat.eqb x 0) eqn:E; cbn [orb negb].
  - discriminate.
  - destruct (JS.isNaN x); cbn [negb]; [discriminate |].
    intros Hx. rewrite FloatAxioms.eqb_spec, Hx in E. discriminate.
Qed.

Lemma or0_opt_not_negative_zero (v : option float) :
  Prim2SF (JS.or0_opt v) <> S754_zero true.
Proof.
  destruct v as [x |]; [apply or0_not_negative_zero | discriminate].
Qed.

End Binary64.

(** ** Overall risk combiner *)

Section Combiner.

Local Open Scope float_scope.

Implicit Types data : gmap AssessmentStage StageData.

Lemma riskScores_length data : length (Results.riskScores data) = 3%nat.
Proof. reflexivity. Qed.


Lemma calculateOverallRisk_level data :
  Results.level (Results.calculateOverallRisk data)
  = riskLevelOf (Results.avgRisk data).
Proof.
  unfold Results.calculateOverallRisk, riskLevelOf.
  destruct (JS.gt (Results.avgRisk data) 0.6); [reflexivity |].
  destruct (JS.gt (Results.avgRisk data) 0.3); reflexivity.
Qed.




(** C9, as stated, fails: the sum is accumulated from left to right in
    binary64, so exchanging the eye-tracking and facial-analysis scores
    0.6 and 0.8 (questionnaire ratio 2/5) changes the overall score, and
    here even the level. *)
Lemma combine_permutation_counterexample :
  let data := dataWith 2 5 0.6 0.8 in
  let data' := dataWith 2 5 0.8 0.6 in
  Results.riskScores data = [0.4; 0.6; 0.8] /\
  Results.riskScores data' = [0.4; 0.8; 0.6] /\
  Permutation (Results.riskScores data) (Results.riskScores data') /\
  Results.avgRisk data <> Results.avgRisk data' /\
  Results.level (Results.calculateOverallRisk data) = Medium /\
  Results.level (Results.calculateOverallRisk data') = High.
Proof.
  repeat split; try (vm_compute; reflexivity).
  - change (Results.riskScores (dataWith 2 5 0.6 0.8)) with [0.4; 0.6; 0.8].
    change (Results.riskScores (dataWith 2 5 0.8 0.6)) with [0.4; 0.8; 0.6].
    apply perm_skip, perm_swap.
  - float_neq.
Qed.

(** C9 (amended): the overall score is unchanged when the questionnaire
    and eye-tracking scores (the first two summands) are exchanged, and
    when the two available scores are exchanged while the third entry is
    0 (a stage that is not available). *)
Theorem avgRisk_exchange data data' (a b c : float) :
  Results.riskScores data = [a; b; c] ->
  Results.riskScores data' = [b; a; c]
  \/ (a = 0 /\ Results.riskScores data' = [0; c; b])
  \/ (b = 0 /\ Results.riskScores data' = [c; 0; a]) ->
  Results.avgRisk data = Results.avgRisk data'.
Proof.
  intros H H'.
  assert (Ha : Prim2SF a <> S754_zero true).
  { injection H as <- _ _. apply or0_not_negative_zero. }
  assert (Hb : Prim2SF b <> S754_zero true).
  { injection H as _ <- _. apply or0_opt_not_negative_zero. }
  assert (Hc : Prim2SF c <> S754_zero true).
  { injection H as _ _ <-. apply or0_opt_not_negative_zero. }
  unfold Results.avgRisk. rewrite H.
  destruct H' as [-> | [[-> ->] | [-> ->]]];
    unfold JS.sum; cbn [fold_left length].
  - rewrite (float_add_0_l a Ha), (float_add_0_l b Hb).
    rewrite (float_add_comm a b). reflexivity.
  - change (0 + 0) with 0.
    rewrite (float_add_0_l b Hb), (float_add_0_l c Hc).
    rewrite (float_add_comm b c). reflexivity.
  - rewrite (float_add_0_l a Ha), (float_add_0_l c Hc).
    rewrite (float_add_0_r a Ha), (float_add_0_r c Hc).
    rewrite (float_add_comm a c). reflexivity.
Qed.

Lemma avgRisk_exchange_witness :
  Results.avgRisk (dataWith 2 5 0.6 0.8)
  = Results.avgRisk (dataWith 3 5 0.4 0.8).
Proof.
  apply (avgRisk_exchange _ _ 0.4 0.6 0.8); [reflexivity |].
  left. reflexivity.
Defined.

End Combiner.

(** ** Indicator ratio and thresholds *)

Section Thresholds.

Local Open Scope float_scope.

Lemma scores_ok_64 : scores_ok 64 = true.
Proof. vm_compute. reflexivity. Qed.

Lemma score_ok_bounded (k n : nat) :
  (1 <= n <= 64)%nat -> (k <= n)%nat -> score_ok k n = true.
Proof.
  intros Hn Hk.
  pose proof scores_ok_64 as H. unfold scores_ok in H.
  rewrite forallb_forall in H.
  specialize (H n). rewrite in_seq in H.
  assert (Hin : (1 <= n < 1 + 64)%nat) by lia.
  specialize (H Hin). rewrite forallb_forall in H.
  apply H. rewrite in_seq. lia.
Qed.

Lemma set_flags_as_count (values : list bool) :
  length (List.filter (fun b : bool => b) values)
  = count_occ Bool.bool_dec values true.
Proof.
  induction values as [| [] values IH]; cbn; [reflexivity | now f_equal | exact IH].
Qed.

Lemma count_le_length (values : list bool) :
  (count_occ Bool.bool_dec values true <= length values)%nat.
Proof.
  induction values as [| [] values IH]; cbn; lia.
Qed.

Lemma riskLevelOf_cases (s : float) :
  JS.le s 0.6 = negb (JS.gt s 0.6) ->
  JS.le s 0.3 = negb (JS.gt s 0.3) ->
  (JS.gt s 0.6 = true -> JS.gt s 0.3 = true) ->
  (riskLevelOf s = High <-> JS.gt s 0.6 = true) /\
  (riskLevelOf s = Medium <-> JS.gt s 0.3 = true /\ JS.le s 0.6 = true) /\
  (riskLevelOf s = Low <-> JS.le s 0.3 = true).
Proof.
  unfold riskLevelOf. intros -> -> Himp.
  destruct (JS.gt s 0.6) eqn:E6.
  - rewrite (Himp eq_refl). cbn. intuition congruence.
  - destruct (JS.gt s 0.3); cbn; intuition congruence.
Qed.

Lemma EyeTracking_score_from_flags (m : EyeTracking.EyeMetrics) :
  let r := EyeTracking.stopRecording m in
  EyeTracking.riskScore r = riskScoreOf (EyeTracking.values (EyeTracking.indicators r))
  /\ EyeTracking.riskLevel r = riskLevelOf (EyeTracking.riskScore r)
  /\ length (EyeTracking.values (EyeTracking.indicators r)) = 4%nat.
Proof. repeat split. Qed.

Lemma FacialAnalysis_score_from_flags (m : FacialAnalysis.FacialMetrics) :
  let r := FacialAnalysis.stopRecording m in
  FacialAnalysis.riskScore r
  = riskScoreOf (FacialAnalysis.values (FacialAnalysis.indicators r))
  /\ FacialAnalysis.riskLevel r = riskLevelOf (FacialAnalysis.riskScore r)
  /\ length (FacialAnalysis.values (FacialAnalysis.indicators r)) = 5%nat.
Proof. repeat split. Qed.

(** C4: for every non-empty indicator set (of at most 64 flags; the
    source's sets have 4 and 5), the risk score is the number of set flags
    divided by the number of flags and lies in [0,1]; the level is High iff
    score > 0.6, Medium iff 0.3 < score <= 0.6, Low iff score <= 0.3; a score
    of exactly 0.6 gives Medium and a score of exactly 0.3 gives Low.  Both
    timed stages compute their score and level this way. *)
Theorem riskScore_riskLevel_thresholds (values : list bool) :
  (0 < length values <= 64)%nat ->
  let score := riskScoreOf values in
  score = JS.of_nat (count_occ Bool.bool_dec values true)
          / JS.of_nat (length values) /\
  JS.le 0 score = true /\ JS.le score 1 = true /\
  (riskLevelOf score = High <-> JS.gt score 0.6 = true) /\
  (riskLevelOf score = Medium <->
   JS.gt score 0.3 = true /\ JS.le score 0.6 = true) /\
  (riskLevelOf score = Low <-> JS.le score 0.3 = true) /\
  riskLevelOf 0.6 = Medium /\ riskLevelOf 0.3 = Low /\
  (forall m, EyeTracking.riskScore (EyeTracking.stopRecording m)
             = riskScoreOf (EyeTracking.values
                              (EyeTracking.indicators
                                 (EyeTracking.stopRecording m)))
             /\ EyeTracking.riskLevel (EyeTracking.stopRecording m)
                = riskLevelOf (EyeTracking.riskScore
                                 (EyeTracking.stopRecording m))) /\
  (forall m, FacialAnalysis.riskScore (FacialAnalysis.stopRecording m)
             = riskScoreOf (FacialAnalysis.values
                              (FacialAnalysis.indicators
                                 (FacialAnalysis.stopRecording m)))
             /\ FacialAnalysis.riskLevel (FacialAnalysis.stopRecording m)
                = riskLevelOf (FacialAnalysis.riskScore
                                 (FacialAnalysis.stopRecording m))).
Proof.
  intros Hlen score.
  assert (Hscore : score = JS.of_nat (count_occ Bool.bool_dec values true)
                           / JS.of_nat (length values)).
  { unfold score, riskScoreOf. now rewrite set_flags_as_count. }
  pose proof (score_ok_bounded (count_occ Bool.bool_dec values true)
                (length values) ltac:(lia) (count_le_length values)) as Hok.
  unfold score_ok in Hok. cbv zeta in Hok. rewrite <- Hscore in Hok.
  apply andb_prop in Hok as [Hok Himp].
  apply andb_prop in Hok as [Hok H3].
  apply andb_prop in Hok as [Hok H6].
  apply andb_prop in Hok as [H0 H1].
  apply Bool.eqb_prop in H3, H6.
  assert (Himp' : JS.gt score 0.6 = true -> JS.gt score 0.3 = true).
  { intros E. now rewrite E in Himp. }
  destruct (riskLevelOf_cases score H6 H3 Himp') as (HH & HM & HL).
  split; [exact Hscore |].
  split; [exact H0 |]. split; [exact H1 |].
  split; [exact HH |]. split; [exact HM |]. split; [exact HL |].
  split; [vm_compute; reflexivity |].
  split; [vm_compute; reflexivity |].
  split; intros m; split; reflexivity.
Qed.

Lemma riskScore_riskLevel_thresholds_witness :
  let score := riskScoreOf [true; true; true; false; false] in
  JS.le 0 score = true /\ JS.le score 1 = true /\
  (riskLevelOf score = Medium <->
   JS.gt score 0.3 = true /\ JS.le score 0.6 = true).
Proof.
  intros score.
  assert (Hlen : (0 < length [true; true; true; false; false] <= 64)%nat)
    by (simpl; lia).
  destruct (riskScore_riskLevel_thresholds
              [true; true; true; false; false] Hlen)
    as (_ & H0 & H1 & _ & HM & _).
  exact (conj H0 (conj H1 HM)).
Defined.

(** Three of five flags give a score of exactly 0.6, hence Medium. *)
Lemma three_of_five_is_Medium :
  riskScoreOf [true; true; true; false; false] = 0.6
  /\ riskLevelOf (riskScoreOf [true; true; true; false; false]) = Medium.
Proof. split; vm_compute; reflexivity. Qed.

End Thresholds.

(** ** Questionnaire *)

Section QuestionnaireScoring.

Local Open Scope float_scope.

Lemma complete_riskLevel (answers : gmap nat nat) :
  Questionnaire.riskLevel (Questionnaire.complete answers)
  = riskLevelOf
      (JS.of_nat (Questionnaire.totalScore (Questionnaire.complete answers))
       / JS.of_nat
           (Questionnaire.maxTotalScore (Questionnaire.complete answers))).
Proof.
  unfold riskLevelOf. reflexivity.
Qed.

(** C5: the questionnaire result has no indicator flags; its level is the
    threshold rule (High above 0.6, Medium above 0.3, else Low) applied to
    totalScore / maxTotalScore, with maxTotalScore = 18.  When totalScore
    is 6 the ratio is the binary64 value nearest 1/3 and the level is
    Medium. *)
Theorem questionnaire_level_from_ratio (answers : gmap nat nat) :
  let r := Questionnaire.complete answers in
  Questionnaire.handleNext 5 answers = inr r /\
  Questionnaire.maxTotalScore r = 18%nat /\
  Questionnaire.riskLevel r
  = riskLevelOf (JS.of_nat (Questionnaire.totalScore r)
                 / JS.of_nat (Questionnaire.maxTotalScore r)) /\
  (Questionnaire.totalScore r = 6%nat ->
   JS.of_nat (Questionnaire.totalScore r)
   / JS.of_nat (Questionnaire.maxTotalScore r) = 0.3333333333333333
   /\ Questionnaire.riskLevel r = Medium).
Proof.
  intros r.
  split; [reflexivity |]. split; [reflexivity |].
  split; [apply complete_riskLevel |].
  intros H6. unfold r in *. rewrite (complete_riskLevel answers), H6.
  change (Questionnaire.maxTotalScore (Questionnaire.complete answers))
    with 18%nat.
  split; vm_compute; reflexivity.
Qed.

Lemma questionnaire_level_from_ratio_witness :
  Questionnaire.riskLevel
    (Questionnaire.complete
       (list_to_map [(1, 1); (2, 1); (3, 1); (4, 1); (5, 1); (6, 1)]%nat))
  = Medium.
Proof.
  apply (questionnaire_level_from_ratio
           (list_to_map [(1, 1); (2, 1); (3, 1); (4, 1); (5, 1); (6, 1)]%nat)).
  vm_compute. reflexivity.
Defined.

End QuestionnaireScoring.

(** ** Eye-tracking classifier *)

Section EyeTrackingClassifier.

Local Open Scope float_scope.

Import EyeTracking.

(** C6: the eye-tracking result carries exactly four flags:
    longFixations iff avgFixationDuration > 1200, lowSaccadicRate iff
    saccadicRate < 30, atypicalBlinking iff blinkRatePerMinute < 10 or
    > 25, poorGazeStability iff gazeStability < 0.6.  A summary with
    avgFixationDuration = 1500, saccadicRate = 20, blinkRatePerMinute = 8
    and gazeStability = 0.5 sets all four, giving score 1 and level High. *)
Theorem eye_tracking_indicators (m : EyeMetrics) :
  let r := stopRecording m in
  indicators r
  = {| longFixations := JS.gt (avgFixationDuration (metrics r)) 1200;
       lowSaccadicRate := JS.lt (saccadicRate (metrics r)) 30;
       atypicalBlinking :=
         JS.lt (blinkRatePerMinute (metrics r)) 10
         || JS.gt (blinkRatePerMinute (metrics r)) 25;
       poorGazeStability := JS.lt (metrics_gazeStability (metrics r)) 0.6 |}
  /\ length (values (indicators r)) = 4%nat
  /\ (avgFixationDuration (metrics r) = 1500 ->
      saccadicRate (metrics r) = 20 ->
      blinkRatePerMinute (metrics r) = 8 ->
      metrics_gazeStability (metrics r) = 0.5 ->
      indicators r
      = {| longFixations := true; lowSaccadicRate := true;
           atypicalBlinking := true; poorGazeStability := true |}
      /\ riskScore r = 1 /\ riskLevel r = High).
Proof.
  intros r.
  assert (Hind : indicators r
    = {| longFixations := JS.gt (avgFixationDuration (metrics r)) 1200;
         lowSaccadicRate := JS.lt (saccadicRate (metrics r)) 30;
         atypicalBlinking :=
           JS.lt (blinkRatePerMinute (metrics r)) 10
           || JS.gt (blinkRatePerMinute (metrics r)) 25;
         poorGazeStability :=
           JS.lt (metrics_gazeStability (metrics r)) 0.6 |})
    by reflexivity.
  split; [exact Hind |]. split; [reflexivity |].
  intros Ha Hs Hb Hg.
  assert (Hall : indicators r
    = {| longFixations := true; lowSaccadicRate := true;
         atypicalBlinking := true; poorGazeStability := true |}).
  { rewrite Hind, Ha, Hs, Hb, Hg. vm_compute. reflexivity. }
  split; [exact Hall |].
  change (riskLevel r) with (riskLevelOf (riskScore r)).
  change (riskScore r) with (riskScoreOf (values (indicators r))).
  rewrite Hall. split; vm_compute; reflexivity.
Qed.

Lemma eye_tracking_indicators_witness :
  riskLevel (stopRecording {| fixationDuration := [1500];
                              saccadicMovements := 10;
                              blinkRate := 4;
                              gazeStability := 0.5 |}) = High.
Proof.
  apply (eye_tracking_indicators
           {| fixationDuration := [1500]; saccadicMovements := 10;
              blinkRate := 4; gazeStability := 0.5 |});
    vm_compute; reflexivity.
Defined.

End EyeTrackingClassifier.

(** ** Facial-analysis classifier *)

Section FacialClassifier.

Local Open Scope float_scope.

Import FacialAnalysis.

Lemma sum_zeros (l : list float) :
  Forall (fun x => x = 0) l -> JS.sum l = 0.
Proof.
  unfold JS.sum. induction 1 as [| x l -> _ IH]; cbn [fold_left].
  - reflexivity.
  - change (0 + 0) with 0. exact IH.
Qed.

Lemma totalEmotions_zero (m : FacialMetrics) :
  Forall (fun kc => snd kc = 0) (emotionDetection m) -> totalEmotions m = 0.
Proof.
  intros H. unfold totalEmotions. apply sum_zeros.
  induction H as [| [k c] l Hc _ IH]; cbn [map]; constructor; auto.
Qed.

Lemma get_zeros (key : string) (obj : list (string * float)) :
  Forall (fun kc => snd kc = 0) obj ->
  get key obj = None \/ get key obj = Some 0.
Proof.
  induction 1 as [| [k c] l Hc _ IH]; cbn [get]; [now left |].
  destruct (String.eqb k key); [right; cbn in Hc; now subst | exact IH].
Qed.

Lemma includes_false (x : string) (arr : list string) :
  includes x arr = false -> x ∉ arr.
Proof.
  unfold includes. intros H Hin.
  apply list_elem_of_In in Hin.
  assert (existsb (String.eqb x) arr = true) as E.
  { apply existsb_exists. exists x. split; [exact Hin | apply String.eqb_refl]. }
  congruence.
Qed.

Lemma simulate_keeps_NoDup (m : FacialMetrics) (d : Draws) :
  NoDup (microExpressions m) ->
  NoDup (microExpressions (simulateFacialAnalysis m d)).
Proof.
  intros H. unfold simulateFacialAnalysis; cbn [microExpressions].
  destruct (JS.gt (r_micro d) 0.8); [| exact H].
  destruct (includes _ (microExpressions m)) eqn:E; cbn [negb]; [exact H |].
  apply NoDup_app. split; [exact H |]. split.
  - intros x Hx Hx'. apply list_elem_of_singleton in Hx'. subst x.
    now apply includes_false in E.
  - apply NoDup_singleton.
Qed.

Lemma record_NoDup (ticks : list Draws) :
  NoDup (microExpressions (record ticks)).
Proof.
  unfold record.
  assert (G : forall m, NoDup (microExpressions m) ->
                        NoDup (microExpressions
                                 (fold_left simulateFacialAnalysis ticks m))).
  { induction ticks as [| d ticks IH]; intros m Hm; cbn [fold_left].
    - exact Hm.
    - apply IH, simulate_keeps_NoDup, Hm. }
  apply G. constructor.
Qed.

(** The spec's scenario C: neutral 90 of 100, one micro-expression,
    eye-contact rate 30%, symmetry 0.75. *)
Lemma facial_scenario_all_flags :
  let r := stopRecording
             {| emotionDetection :=
                  [("neutral", 90); ("happy", 10); ("sad", 0);
                   ("surprised", 0); ("angry", 0); ("fearful", 0)]%string;
                facialLandmarks := 468;
                eyeContactFrequency := 13.5;
                microExpressions := ["eye_squint"%string];
                symmetryScore := 0.75 |} in
  eyeContactRate (metrics r) = 30
  /\ indicators r
     = {| limitedEmotionalRange := true; lowEyeContact := true;
          reducedMicroExpressions := true; facialAsymmetry := true;
          neutralExpressionDominance := true |}
  /\ riskScore r = 1 /\ riskLevel r = High.
Proof. repeat split; vm_compute; reflexivity. Qed.

End FacialClassifier.

(** ** Aggregation: empty recordings and rates *)

Section Aggregation.

Local Open Scope float_scope.

(** C2, as stated, fails: a recording stopped before its first tick is
    classified High by both timed stages, not Low. *)
Lemma empty_recording_counterexample :
  EyeTracking.riskLevel (EyeTracking.stopRecording (EyeTracking.record []))
  <> Low
  /\ FacialAnalysis.riskLevel
       (FacialAnalysis.stopRecording (FacialAnalysis.record []))
     <> Low.
Proof. split; vm_compute; discriminate. Qed.

(** C2 (amended): aggregating an empty sample sequence gives, for every
    stage kind, a summary whose rates, counts, averages and shares are all
    0 (no NaN is left in it).  Classifying it gives Low for the
    questionnaire, and High for eye tracking (3 of 4 flags, score 0.75)
    and for facial analysis (4 of 5 flags, score 0.8), since zero rates
    fall below the flags' thresholds. *)
Theorem empty_sequence_summaries :
  let e := EyeTracking.stopRecording (EyeTracking.record []) in
  let f := FacialAnalysis.stopRecording (FacialAnalysis.record []) in
  let q := Questionnaire.complete ∅ in
  EyeTracking.metrics e
  = {| EyeTracking.avgFixationDuration := 0;
       EyeTracking.saccadicRate := 0;
       EyeTracking.blinkRatePerMinute := 0;
       EyeTracking.metrics_gazeStability := 0;
       EyeTracking.recordingDuration := 30 |} /\
  EyeTracking.indicators e
  = {| EyeTracking.longFixations := false;
       EyeTracking.lowSaccadicRate := true;
       EyeTracking.atypicalBlinking := true;
       EyeTracking.poorGazeStability := true |} /\
  EyeTracking.riskScore e = 0.75 /\
  EyeTracking.riskLevel e = High /\
  FacialAnalysis.totalEmotions (FacialAnalysis.record []) = 0 /\
  FacialAnalysis.metrics f
  = {| FacialAnalysis.emotionDistribution :=
         map (fun l => {| FacialAnalysis.emotion := l;
                          FacialAnalysis.percentage := 0 |})
             FacialAnalysis.emotions;
       FacialAnalysis.eyeContactRate := 0;
       FacialAnalysis.metrics_microExpressions := [];
       FacialAnalysis.facialSymmetry := 0;
       FacialAnalysis.landmarksDetected := 0;
       FacialAnalysis.recordingDuration := 45 |} /\
  FacialAnalysis.indicators f
  = {| FacialAnalysis.limitedEmotionalRange := true;
       FacialAnalysis.lowEyeContact := true;
       FacialAnalysis.reducedMicroExpressions := true;
       FacialAnalysis.facialAsymmetry := true;
       FacialAnalysis.neutralExpressionDominance := false |} /\
  FacialAnalysis.riskScore f = 0.8 /\
  FacialAnalysis.riskLevel f = High /\
  Questionnaire.totalScore q = 0%nat /\
  Forall (fun c => Questionnaire.score c = 0%nat
                   /\ Questionnaire.percentage c = 0)
         (Questionnaire.categoryScores q) /\
  length (Questionnaire.categoryScores q) = 5%nat /\
  Questionnaire.riskLevel q = Low.
Proof.
  repeat split; try (vm_compute; reflexivity).
  vm_compute. repeat constructor.
Qed.

Lemma counting_exact_1000 : counting_exact 1000 = true.
Proof. vm_compute. reflexivity. Qed.

Lemma of_nat_succ (n : nat) :
  (n < 1000)%nat -> JS.of_nat n + 1 = JS.of_nat (S n).
Proof.
  intros Hn. pose proof counting_exact_1000 as H.
  unfold counting_exact in H. rewrite forallb_forall in H.
  apply FloatAxioms.Leibniz.eqb_spec, H, in_seq. lia.
Qed.

Lemma filter_length_cons {A} (p : A -> bool) (x : A) (l : list A) :
  length (List.filter p (x :: l))
  = ((if p x then 1 else 0) + length (List.filter p l))%nat.
Proof. cbn [List.filter]. destruct (p x); reflexivity. Qed.

Lemma filter_length_bound {A} (p : A -> bool) (l : list A) :
  (length (List.filter p l) <= length l)%nat.
Proof.
  induction l as [| x l IH]; [reflexivity |].
  rewrite filter_length_cons. cbn [length]. destruct (p x); lia.
Qed.

(** The counters of the eye-tracking accumulator count the ticks whose
    draw exceeds the detection threshold. *)
Lemma eye_counters (ticks : list EyeTracking.Draws) :
  forall (m : EyeTracking.EyeMetrics) (ns nb : nat),
    EyeTracking.saccadicMovements m = JS.of_nat ns ->
    EyeTracking.blinkRate m = JS.of_nat nb ->
    (ns + length ticks <= 1000)%nat ->
    (nb + length ticks <= 1000)%nat ->
    EyeTracking.saccadicMovements
      (fold_left EyeTracking.simulateEyeTracking ticks m)
    = JS.of_nat
        (ns + length (List.filter
                        (fun d => JS.gt (EyeTracking.r_saccade d) 0.7) ticks))
    /\ EyeTracking.blinkRate
         (fold_left EyeTracking.simulateEyeTracking ticks m)
       = JS.of_nat
           (nb + length (List.filter
                           (fun d => JS.gt (EyeTracking.r_blink d) 0.95)
                           ticks)).
Proof.
  induction ticks as [| d ticks IH]; intros m ns nb Hs Hb Hns Hnb.
  - cbn [fold_left List.filter length]. rewrite !Nat.add_0_r. now split.
  - cbn [fold_left]. rewrite !filter_length_cons. cbn [length] in Hns, Hnb.
    destruct (JS.gt (EyeTracking.r_saccade d) 0.7) eqn:Es;
      destruct (JS.gt (EyeTracking.r_blink d) 0.95) eqn:Eb;
      rewrite !Nat.add_assoc;
      apply IH;
      unfold EyeTracking.simulateEyeTracking;
      cbn [EyeTracking.saccadicMovements EyeTracking.blinkRate];
      rewrite ?Es, ?Eb, ?Hs, ?Hb, ?Nat.add_0_r, ?Nat.add_1_r;
      try reflexivity; try lia; apply of_nat_succ; lia.
Qed.

Lemma face_counter (ticks : list FacialAnalysis.Draws) :
  forall (m : FacialAnalysis.FacialMetrics) (n : nat),
    FacialAnalysis.eyeContactFrequency m = JS.of_nat n ->
    (n + length ticks <= 1000)%nat ->
    FacialAnalysis.eyeContactFrequency
      (fold_left FacialAnalysis.simulateFacialAnalysis ticks m)
    = JS.of_nat
        (n + length (List.filter
                       (fun d => JS.gt (FacialAnalysis.r_eyeContact d) 0.4)
                       ticks)).
Proof.
  induction ticks as [| d ticks IH]; intros m n Hm Hn.
  - cbn [fold_left List.filter length]. now rewrite Nat.add_0_r.
  - cbn [fold_left]. rewrite filter_length_cons. cbn [length] in Hn.
    destruct (JS.gt (FacialAnalysis.r_eyeContact d) 0.4) eqn:E;
      rewrite Nat.add_assoc;
      apply IH;
      unfold FacialAnalysis.simulateFacialAnalysis;
      cbn [FacialAnalysis.eyeContactFrequency];
      rewrite ?E, ?Hm, ?Nat.add_0_r, ?Nat.add_1_r;
      try reflexivity; try lia; apply of_nat_succ; lia.
Qed.

(** C8: for every sample sequence, the rates of the timed stages divide
    the counters by the configured duration (30 s for eye tracking, 45 s
    for facial analysis), whatever the number of samples:
    saccadicRate = saccadicMovements / (30 / 60),
    blinkRatePerMinute = blinkRate / 30 * 60,
    eyeContactRate = eyeContactFrequency / 45 * 100; the counters being
    the numbers of ticks on which a saccade, a blink or eye contact was
    detected (for sequences of at most 1000 ticks, where counting in
    binary64 is checked to be exact). *)
Theorem rates_use_configured_duration
  (ticks : list EyeTracking.Draws) (fticks : list FacialAnalysis.Draws) :
  let m := EyeTracking.record ticks in
  let r := EyeTracking.stopRecording m in
  let fm := FacialAnalysis.record fticks in
  let fr := FacialAnalysis.stopRecording fm in
  EyeTracking.RECORDING_DURATION = 30 /\
  FacialAnalysis.RECORDING_DURATION = 45 /\
  EyeTracking.saccadicRate (EyeTracking.metrics r)
  = EyeTracking.saccadicMovements m / (EyeTracking.RECORDING_DURATION / 60) /\
  EyeTracking.blinkRatePerMinute (EyeTracking.metrics r)
  = EyeTracking.blinkRate m / EyeTracking.RECORDING_DURATION * 60 /\
  FacialAnalysis.eyeContactRate (FacialAnalysis.metrics fr)
  = FacialAnalysis.eyeContactFrequency fm
    / FacialAnalysis.RECORDING_DURATION * 100 /\
  ((length ticks <= 1000)%nat ->
   EyeTracking.saccadicRate (EyeTracking.metrics r)
   = JS.of_nat (length (List.filter
                          (fun d => JS.gt (EyeTracking.r_saccade d) 0.7)
                          ticks))
     / (30 / 60)
   /\ EyeTracking.blinkRatePerMinute (EyeTracking.metrics r)
      = JS.of_nat (length (List.filter
                             (fun d => JS.gt (EyeTracking.r_blink d) 0.95)
                             ticks))
        / 30 * 60) /\
  ((length fticks <= 1000)%nat ->
   FacialAnalysis.eyeContactRate (FacialAnalysis.metrics fr)
   = JS.of_nat (length (List.filter
                          (fun d => JS.gt (FacialAnalysis.r_eyeContact d) 0.4)
                          fticks))
     / 45 * 100).
Proof.
  intros m r fm fr.
  split; [reflexivity |]. split; [reflexivity |].
  split; [reflexivity |]. split; [reflexivity |]. split; [reflexivity |].
  split.
  - intros Hlen.
    destruct (eye_counters ticks EyeTracking.initialMetrics 0 0
                eq_refl eq_refl Hlen Hlen) as [Hs Hb].
    cbn [Nat.add] in Hs, Hb.
    unfold r, EyeTracking.stopRecording;
      cbn [EyeTracking.metrics EyeTracking.saccadicRate
           EyeTracking.blinkRatePerMinute].
    unfold m, EyeTracking.record. rewrite Hs, Hb. split; reflexivity.
  - intros Hlen.
    pose proof (face_counter fticks FacialAnalysis.initialMetrics 0
                  eq_refl Hlen) as Hc.
    cbn [Nat.add] in Hc.
    unfold fr, FacialAnalysis.stopRecording;
      cbn [FacialAnalysis.metrics FacialAnalysis.eyeContactRate].
    unfold fm, FacialAnalysis.record. rewrite Hc. reflexivity.
Qed.

(** Three ticks with two saccades and one blink: the rates are those of
    the 30 s window (4 and 2 per minute), not of the 3 s recorded. *)
Lemma rates_use_configured_duration_witness :
  let ticks :=
    [ {| EyeTracking.r_fixation := 0.5; EyeTracking.r_saccade := 0.9;
         EyeTracking.r_blink := 0.5; EyeTracking.r_gaze := 0.5 |};
      {| EyeTracking.r_fixation := 0.5; EyeTracking.r_saccade := 0.1;
         EyeTracking.r_blink := 0.99; EyeTracking.r_gaze := 0.5 |};
      {| EyeTracking.r_fixation := 0.5; EyeTracking.r_saccade := 0.8;
         EyeTracking.r_blink := 0.5; EyeTracking.r_gaze := 0.5 |} ] in
  let r := EyeTracking.stopRecording (EyeTracking.record ticks) in
  EyeTracking.saccadicRate (EyeTracking.metrics r) = 4
  /\ EyeTracking.blinkRatePerMinute (EyeTracking.metrics r) = 2.
Proof.
  intros ticks r.
  assert (Hlen : (length ticks <= 1000)%nat) by (simpl; lia).
  destruct (rates_use_configured_duration ticks [])
    as (_ & _ & _ & _ & _ & H & _).
  destruct (H Hlen) as [Hs Hb]. unfold r.
  split; [rewrite Hs | rewrite Hb]; vm_compute; reflexivity.
Defined.

End Aggregation.

(** ** Stage sequencing *)

Section Sequencing.

Import Session.

Lemma handleStageComplete_total (s : State) (d : StageData) :
  exists s',
    handleStageComplete s d = Some s'
    /\ assessmentData s' = <[currentStage s := d]> (assessmentData s).
Proof.
  destruct s as [cur data p].
  destruct cur; eexists; (split; [reflexivity |]); reflexivity.
Qed.

(** C10: a stage-completion event leaves the stored results of all other
    stage kinds as they were; it only writes the entry of the completed
    (current) stage. *)
Theorem handleStageComplete_frame
  (s : State) (d : StageData) (k : AssessmentStage) :
  k <> currentStage s ->
  exists s',
    handleStageComplete s d = Some s'
    /\ assessmentData s' !! k = assessmentData s !! k
    /\ assessmentData s' !! currentStage s = Some d.
Proof.
  intros Hk.
  destruct (handleStageComplete_total s d) as (s' & Hs' & Hdata).
  exists s'. split; [exact Hs' |]. rewrite Hdata. split.
  - apply lookup_insert_ne. congruence.
  - apply lookup_insert_eq.
Qed.

Lemma handleStageComplete_frame_witness :
  exists s',
    handleStageComplete
      {| currentStage := eyeTracking;
         assessmentData := {[ questionnaire := questionnaireWith 6 18 ]};
         progress := 0%float |}
      (eyeTrackingWith 1%float) = Some s'
    /\ assessmentData s' !! questionnaire = Some (questionnaireWith 6 18).
Proof.
  destruct (handleStageComplete_frame
              {| currentStage := eyeTracking;
                 assessmentData := {[ questionnaire := questionnaireWith 6 18 ]};
                 progress := 0%float |}
              (eyeTrackingWith 1%float) questionnaire)
    as (s' & Hs' & Hk & _); [discriminate |].
  exists s'. split; [exact Hs' |].
  rewrite Hk. apply lookup_singleton_eq.
Defined.

(** X2: the three stages, completed in order from the Begin button, lead
    to [results] with the three payloads stored under their own keys. *)
Lemma three_stages_in_order (q e f : StageData) :
  exists s1 s2 s3,
    handleStageComplete (begin initial) q = Some s1
    /\ handleStageComplete s1 e = Some s2
    /\ handleStageComplete s2 f = Some s3
    /\ currentStage s3 = results
    /\ assessmentData s3 !! questionnaire = Some q
    /\ assessmentData s3 !! eyeTracking = Some e
    /\ assessmentData s3 !! facialAnalysis = Some f.
Proof.
  do 3 eexists. repeat split; reflexivity.
Qed.

End Sequencing.

(** ** The flow of the application *)

Section FlowProperties.

Import Session.

Lemma findIndexFrom_absent (l : list AssessmentStage) (x : AssessmentStage)
  (i : Z) :
  x ∉ l -> findIndexFrom i l x = (-1)%Z.
Proof.
  revert i. induction l as [| y l IH]; intros i Hx; cbn [findIndexFrom].
  - reflexivity.
  - apply not_elem_of_cons in Hx as [Hne Hx].
    destruct (decide (y = x)); [congruence | now apply IH].
Qed.

Lemma findIndexFrom_present (l : list AssessmentStage) (x : AssessmentStage)
  (i : Z) :
  x ∈ l ->
  exists n : nat,
    findIndexFrom i l x = (i + Z.of_nat n)%Z
    /\ l !! n = Some x
    /\ forall m : nat, (m < n)%nat -> l !! m <> Some x.
Proof.
  revert i. induction l as [| y l IH]; intros i Hx.
  - now apply elem_of_nil in Hx.
  - cbn [findIndexFrom]. destruct (decide (y = x)) as [-> | Hne].
    + exists 0%nat. split; [lia |]. split; [reflexivity |]. lia.
    + apply elem_of_cons in Hx as [-> | Hx]; [congruence |].
      destruct (IH (i + 1)%Z Hx) as (n & Hn & Hl & Hfirst).
      exists (S n). split; [lia |]. split; [exact Hl |].
      intros [| m] Hm; cbn; [congruence | apply Hfirst; lia].
Qed.

(** X1: [findIndex] and indexing are inverse to each other: the result is
    -1 exactly for an absent element; otherwise it is the position of the
    first occurrence. *)
Theorem findIndex_lookup (l : list AssessmentStage) (x : AssessmentStage) :
  (findIndexFrom 0 l x = (-1)%Z <-> x ∉ l)
  /\ (x ∈ l ->
      (0 <= findIndexFrom 0 l x < Z.of_nat (length l))%Z
      /\ l !! Z.to_nat (findIndexFrom 0 l x) = Some x
      /\ forall m : nat,
           (Z.of_nat m < findIndexFrom 0 l x)%Z -> l !! m <> Some x).
Proof.
  split.
  - split; [| apply findIndexFrom_absent].
    intros H Hx. destruct (findIndexFrom_present l x 0 Hx) as (n & Hn & _).
    lia.
  - intros Hx. destruct (findIndexFrom_present l x 0 Hx) as (n & Hn & Hl & Hf).
    rewrite Hn. replace (Z.to_nat (0 + Z.of_nat n)) with n by lia.
    split; [| split; [exact Hl |]].
    + apply lookup_lt_Some in Hl. lia.
    + intros m Hm. apply Hf. lia.
Qed.

Lemma findIndex_lookup_witness :
  stages !! Z.to_nat (findIndexFrom 0 stages facialAnalysis)
  = Some facialAnalysis.
Proof.
  apply (findIndex_lookup stages facialAnalysis).
  apply list_elem_of_In. simpl. tauto.
Defined.

(** X3: after a completion, the progress value lies in [0, 100], and it
    is 100 exactly when the results are shown. *)
Theorem progress_after_completion (s s' : State) (d : StageData) :
  handleStageComplete s d = Some s' ->
  JS.le 0%float (progress s') = true
  /\ JS.le (progress s') 100%float = true
  /\ (progress s' = 100%float <-> currentStage s' = results).
Proof.
  destruct s as [cur data p].
  destruct cur; intros [= <-]; cbn [progress currentStage];
    (split; [vm_compute; reflexivity |]);
    (split; [vm_compute; reflexivity |]);
    split; intros H; try discriminate H; try reflexivity;
    exfalso; revert H; float_neq.
Qed.

Lemma progress_after_completion_witness :
  JS.le (progress {| currentStage := eyeTracking;
                     assessmentData :=
                       <[questionnaire := questionnaireWith 6 18]> ∅;
                     progress := updateProgress questionnaire |})
        100%float = true.
Proof.
  apply (progress_after_completion (begin initial) _ (questionnaireWith 6 18)).
  reflexivity.
Defined.

Lemma reachable_invariant (s : State) :
  Flow.reachable s ->
  currentStage s <> intro
  /\ (forall k d, assessmentData s !! k = Some d -> origin d = k)
  /\ dom (assessmentData s)
     = match currentStage s with
       | intro | questionnaire => ∅
       | eyeTracking => {[ questionnaire ]}
       | facialAnalysis => {[ questionnaire; eyeTracking ]}
       | results => {[ questionnaire; eyeTracking; facialAnalysis ]}
       end.
Proof.
  induction 1 as [| s d s' _ (Hne & Horigin & Hdom) Hb Hstep].
  - split; [discriminate |]. split; [| reflexivity].
    intros k d Hk. cbn in Hk. now rewrite lookup_empty in Hk.
  - destruct s as [cur data p]. cbn [currentStage assessmentData] in *.
    destruct cur, d; try discriminate Hb; try congruence;
      injection Hstep as <-; cbn [currentStage assessmentData];
      (split; [discriminate |]);
      (split;
       [ intros k d' Hk;
         destruct (decide (k = origin d')) as [-> | Hk']; [reflexivity |];
         apply lookup_insert_Some in Hk as [[<- <-] | [_ Hk]];
         [reflexivity | now apply Horigin]
       | rewrite dom_insert_L, Hdom; set_solver ]).
Qed.

Lemma reachable_results_payloads (s : State) :
  Flow.reachable s ->
  currentStage s = results ->
  exists q e f,
    assessmentData s !! questionnaire = Some (QuestionnaireData q)
    /\ assessmentData s !! eyeTracking = Some (EyeTrackingData e)
    /\ assessmentData s !! facialAnalysis = Some (FacialAnalysisData f).
Proof.
  intros Hr Hres.
  destruct (reachable_invariant s Hr) as (_ & Horigin & Hdom).
  rewrite Hres in Hdom.
  assert (Hin : forall k, k ∈ stages -> is_Some (assessmentData s !! k)).
  { intros k Hk. apply elem_of_dom. rewrite Hdom.
    unfold stages in Hk. set_solver. }
  destruct (Hin questionnaire) as [dq Hq]; [unfold stages; set_solver |].
  destruct (Hin eyeTracking) as [de He]; [unfold stages; set_solver |].
  destruct (Hin facialAnalysis) as [df Hf]; [unfold stages; set_solver |].
  pose proof (Horigin _ _ Hq) as Oq.
  pose proof (Horigin _ _ He) as Oe.
  pose proof (Horigin _ _ Hf) as Of.
  destruct dq as [q | |]; try discriminate Oq.
  destruct de as [| e |]; try discriminate Oe.
  destruct df as [| | f]; try discriminate Of.
  now exists q, e, f.
Qed.

(** X4: in every state the application reaches, the stored results are
    exactly those of the stages before the current one, each built by the
    component of its own stage; in particular all three are present when
    the results are shown, and the introduction is never shown again. *)
Theorem reachable_results_complete (s : State) :
  Flow.reachable s ->
  currentStage s <> intro
  /\ dom (assessmentData s)
     = match currentStage s with
       | intro | questionnaire => ∅
       | eyeTracking => {[ questionnaire ]}
       | facialAnalysis => {[ questionnaire; eyeTracking ]}
       | results => {[ questionnaire; eyeTracking; facialAnalysis ]}
       end
  /\ (forall k d, assessmentData s !! k = Some d -> origin d = k)
  /\ (currentStage s = results ->
      exists q e f,
        assessmentData s !! questionnaire = Some (QuestionnaireData q)
        /\ assessmentData s !! eyeTracking = Some (EyeTrackingData e)
        /\ assessmentData s !! facialAnalysis = Some (FacialAnalysisData f)).
Proof.
  intros Hr. destruct (reachable_invariant s Hr) as (Hne & Horigin & Hdom).
  split; [exact Hne |]. split; [exact Hdom |]. split; [exact Horigin |].
  now apply reachable_results_payloads.
Qed.

Lemma reachable_results_complete_witness :
  exists q e f,
    dataWith 6 18 0.75 0.8 !! questionnaire = Some (QuestionnaireData q)
    /\ dataWith 6 18 0.75 0.8 !! eyeTracking = Some (EyeTrackingData e)
    /\ dataWith 6 18 0.75 0.8 !! facialAnalysis = Some (FacialAnalysisData f).
Proof.
  apply (reachable_results_complete
           {| currentStage := results;
              assessmentData := dataWith 6 18 0.75 0.8;
              progress := 100%float |}); [| reflexivity].
  apply (Flow.reachable_complete
           {| currentStage := facialAnalysis;
              assessmentData :=
                <[eyeTracking := eyeTrackingWith 0.75]>
                  (<[questionnaire := questionnaireWith 6 18]> ∅);
              progress := updateProgress eyeTracking |}
           (facialAnalysisWith 0.8)); [| reflexivity | reflexivity].
  apply (Flow.reachable_complete
           {| currentStage := eyeTracking;
              assessmentData := <[questionnaire := questionnaireWith 6 18]> ∅;
              progress := updateProgress questionnaire |}
           (eyeTrackingWith 0.75)); [| reflexivity | reflexivity].
  apply (Flow.reachable_complete (begin initial) (questionnaireWith 6 18));
    [| reflexivity | reflexivity].
  apply Flow.reachable_begin.
Defined.

End FlowProperties.

(** ** Questionnaire: navigation and totals *)

Section QuestionnaireProperties.

Import Questionnaire.

Implicit Types answers : gmap nat nat.

Lemma totalScore_unfold answers :
  totalScore (complete answers)
  = map_fold (fun _ score sum => (sum + score)%nat) 0%nat answers.
Proof. reflexivity. Qed.

Lemma totalScore_delete answers (k : nat) :
  totalScore (complete answers)
  = (default 0%nat (answers !! k)
     + totalScore (complete (delete k answers)))%nat.
Proof.
  rewrite !totalScore_unfold.
  destruct (answers !! k) as [v |] eqn:E;
    cbn [default from_option Datatypes.id].
  - rewrite (map_fold_delete_L _ _ k v answers);
      [cbv beta; lia | intros; lia | exact E].
  - now rewrite delete_id.
Qed.

Lemma question_at (i : nat) (q : Question) :
  questions !! i = Some q -> (i < 6)%nat /\ id q = S i.
Proof.
  do 6 (destruct i as [| i]; [intros [= <-]; split; [lia | reflexivity] |]).
  discriminate.
Qed.

Lemma question_ids (q : Question) :
  q ∈ questions -> (1 <= id q <= 6)%nat.
Proof.
  intros H. apply list_elem_of_lookup in H as [i Hi].
  apply question_at in Hi. lia.
Qed.

Lemma question_with_id (k : nat) :
  (1 <= k <= 6)%nat -> exists q, q ∈ questions /\ id q = k.
Proof.
  intros Hk.
  destruct (questions !! (k - 1)%nat) as [q |] eqn:E.
  - exists q. split; [eapply list_elem_of_lookup_2, E |].
    apply question_at in E. lia.
  - apply lookup_ge_None in E. cbn in E. lia.
Qed.

Lemma totalScore_six answers :
  (forall k, is_Some (answers !! k) ->
             exists q, q ∈ questions /\ id q = k) ->
  totalScore (complete answers)
  = (default 0 (answers !! 1) + default 0 (answers !! 2)
     + default 0 (answers !! 3) + default 0 (answers !! 4)
     + default 0 (answers !! 5) + default 0 (answers !! 6))%nat.
Proof.
  intros Hdom.
  rewrite (totalScore_delete answers 1).
  rewrite (totalScore_delete (delete 1 answers) 2).
  rewrite (totalScore_delete (delete 2 (delete 1 answers)) 3).
  rewrite (totalScore_delete (delete 3 (delete 2 (delete 1 answers))) 4).
  rewrite (totalScore_delete
             (delete 4 (delete 3 (delete 2 (delete 1 answers)))) 5).
  rewrite (totalScore_delete
             (delete 5 (delete 4 (delete 3 (delete 2 (delete 1 answers))))) 6).
  assert (Hempty :
    delete 6 (delete 5 (delete 4 (delete 3 (delete 2 (delete 1 answers)))))
    = (∅ : gmap nat nat)).
  { apply map_eq. intros k. rewrite lookup_empty.
    destruct (answers !! k) as [v |] eqn:E.
    - destruct (Hdom k) as (q & Hq & Hid); [now exists v |].
      apply question_ids in Hq. rewrite Hid in Hq.
      assert (k = 1 \/ k = 2 \/ k = 3 \/ k = 4 \/ k = 5 \/ k = 6)%nat
        as [-> | [-> | [-> | [-> | [-> | ->]]]]] by lia;
        repeat (rewrite lookup_delete_eq || rewrite lookup_delete_ne by lia);
        reflexivity.
    - repeat (apply lookup_delete_None; right). exact E. }
  rewrite Hempty.
  repeat (rewrite lookup_delete_ne by lia).
  change (totalScore (complete ∅)) with 0%nat. lia.
Qed.

Lemma categoryScores_explicit answers :
  categoryScores (complete answers)
  = map (fun '(category, scores) =>
           {| cs_category := category;
              score := sumScores scores;
              maxScore := length scores * 3;
              percentage :=
                (JS.of_nat (sumScores scores)
                 / JS.of_nat (length scores * 3) * 100)%float |})
        [ ("Social Communication",
           [default 0 (answers !! 1); default 0 (answers !! 2)]);
          ("Repetitive Behaviors", [default 0 (answers !! 3)]);
          ("Sensory Processing", [default 0 (answers !! 4)]);
          ("Social Interaction", [default 0 (answers !! 5)]);
          ("Communication", [default 0 (answers !! 6)]) ]%nat%string.
Proof. reflexivity. Qed.

(** X7: when every answered id is the id of a question, the category
    scores add up to the total score and the category maxima to the
    maximum total; the categories are reported in the order of their first
    question. *)
Theorem category_scores_add_up answers :
  (forall k, is_Some (answers !! k) ->
             exists q, q ∈ questions /\ id q = k) ->
  let r := complete answers in
  list_sum (map score (categoryScores r)) = totalScore r
  /\ list_sum (map maxScore (categoryScores r)) = maxTotalScore r
  /\ map cs_category (categoryScores r)
     = [ "Social Communication"; "Repetitive Behaviors";
         "Sensory Processing"; "Social Interaction"; "Communication" ]%string.
Proof.
  intros Hdom r. unfold r.
  rewrite (totalScore_six answers Hdom), categoryScores_explicit.
  cbn [map list_sum score maxScore cs_category sumScores fold_left length].
  repeat split; try reflexivity.
  unfold list_sum. cbn [fold_right]. lia.
Qed.

Lemma category_scores_add_up_witness :
  list_sum (map score (categoryScores
                         (complete (list_to_map [(1, 3); (3, 2); (6, 1)]%nat))))
  = 6%nat.
Proof.
  pose proof (category_scores_add_up
                (list_to_map [(1, 3); (3, 2); (6, 1)]%nat)) as H.
  cbv zeta in H. destruct H as [H _].
  - intros k [v Hv].
    assert (k = 1 \/ k = 3 \/ k = 6)%nat as Hk.
    { destruct (decide (k = 1)); [tauto |].
      destruct (decide (k = 3)); [tauto |].
      destruct (decide (k = 6)); [tauto |].
      cbn in Hv. repeat (rewrite lookup_insert_ne in Hv by congruence).
      now rewrite lookup_empty in Hv. }
    apply question_with_id. lia.
  - rewrite H. vm_compute. reflexivity.
Defined.

Lemma percentage_ok_6 :
  forall_upto 6 (fun m => forall_upto (S m) (fun s => percentage_ok s (S m)))
  = true.
Proof. vm_compute. reflexivity. Qed.

Lemma forall_upto_spec (n : nat) (p : nat -> bool) :
  forall_upto n p = true -> forall k, (k <= n)%nat -> p k = true.
Proof.
  unfold forall_upto. rewrite forallb_forall. intros H k Hk.
  apply H, in_seq. lia.
Qed.

Lemma percentage_bounded (s m : nat) :
  (1 <= m <= 6)%nat -> (s <= m)%nat ->
  JS.le 0 (JS.of_nat s / JS.of_nat m * 100)%float = true
  /\ JS.le (JS.of_nat s / JS.of_nat m * 100)%float 100 = true.
Proof.
  intros Hm Hs.
  pose proof (forall_upto_spec _ _ percentage_ok_6 (m - 1)%nat ltac:(lia)) as H.
  cbv beta in H.
  pose proof (forall_upto_spec _ _ H s ltac:(lia)) as H'.
  cbv beta in H'. replace (S (m - 1)) with m in H' by lia.
  unfold percentage_ok in H'. now apply andb_prop in H'.
Qed.

Lemma answersValid_default answers (k : nat) :
  answersValid answers -> (default 0 (answers !! k) <= 3)%nat.
Proof.
  intros Hv. destruct (answers !! k) as [v |] eqn:E; cbn; [| lia].
  now apply (Hv k v).
Qed.

Lemma totalScore_at_most_18 answers :
  answersValid answers -> (totalScore (complete answers) <= 18)%nat.
Proof.
  intros Hv.
  pose proof (answersValid_default answers 1 Hv).
  pose proof (answersValid_default answers 2 Hv).
  pose proof (answersValid_default answers 3 Hv).
  pose proof (answersValid_default answers 4 Hv).
  pose proof (answersValid_default answers 5 Hv).
  pose proof (answersValid_default answers 6 Hv).
  rewrite totalScore_six; [lia |].
  intros k [v Hk]. now apply (Hv k v).
Qed.

(** X8: when every stored answer is an option value (0 to 3) of a
    question, every category score is at most the category maximum and
    every category percentage lies between 0 and 100; the total is at most
    the maximum total. *)
Theorem category_percentages_bounded answers :
  answersValid answers ->
  let r := complete answers in
  Forall (fun c => (score c <= maxScore c)%nat
                   /\ percentage c
                      = (JS.of_nat (score c) / JS.of_nat (maxScore c) * 100)%float
                   /\ JS.le 0 (percentage c) = true
                   /\ JS.le (percentage c) 100 = true)
         (categoryScores r)
  /\ (totalScore r <= maxTotalScore r)%nat.
Proof.
  intros Hv r. unfold r.
  pose proof (answersValid_default answers 1 Hv).
  pose proof (answersValid_default answers 2 Hv).
  pose proof (answersValid_default answers 3 Hv).
  pose proof (answersValid_default answers 4 Hv).
  pose proof (answersValid_default answers 5 Hv).
  pose proof (answersValid_default answers 6 Hv).
  split.
  - rewrite categoryScores_explicit. cbn [map].
    repeat (apply List.Forall_cons; [| try apply List.Forall_nil]);
      cbn [score maxScore percentage sumScores fold_left length Nat.mul
           Nat.add];
      (split; [lia |]); (split; [reflexivity |]);
      apply percentage_bounded; lia.
  - change (maxTotalScore (complete answers)) with 18%nat.
    now apply totalScore_at_most_18.
Qed.

Lemma answersValid_example :
  answersValid (list_to_map [(1, 3); (3, 2); (6, 1)]%nat).
Proof.
  intros k v Hv.
  assert ((k = 1 /\ v = 3) \/ (k = 3 /\ v = 2) \/ (k = 6 /\ v = 1))%nat
    as Hk.
  { cbn in Hv.
    apply lookup_insert_Some in Hv as [[<- <-] | [_ Hv]]; [tauto |].
    apply lookup_insert_Some in Hv as [[<- <-] | [_ Hv]]; [tauto |].
    apply lookup_insert_Some in Hv as [[<- <-] | [_ Hv]]; [tauto |].
    now rewrite lookup_empty in Hv. }
  split; [lia |]. apply question_with_id. lia.
Qed.

Lemma category_percentages_bounded_witness :
  (totalScore (complete (list_to_map [(1, 3); (3, 2); (6, 1)]%nat))
   <= maxTotalScore (complete (list_to_map [(1, 3); (3, 2); (6, 1)]%nat)))%nat.
Proof.
  apply (category_percentages_bounded
           (list_to_map [(1, 3); (3, 2); (6, 1)]%nat)).
  exact answersValid_example.
Defined.

Lemma total_ok_18 : forall_upto 18 total_ok = true.
Proof. vm_compute. reflexivity. Qed.

Lemma RiskLevel_eqb_eq (a b : RiskLevel) : RiskLevel_eqb a b = true -> a = b.
Proof. destruct a, b; cbn; congruence. Qed.

(** X9: for a total of at most 18, the questionnaire's level is decided
    by integer cut-offs: High from 11, Medium from 6 to 10, Low up to 5. *)
Theorem questionnaire_level_cutoffs answers :
  (totalScore (complete answers) <= 18)%nat ->
  riskLevel (complete answers) = levelOfTotal (totalScore (complete answers)).
Proof.
  intros Ht. rewrite complete_riskLevel.
  change (maxTotalScore (complete answers)) with 18%nat.
  pose proof (forall_upto_spec _ _ total_ok_18 _ Ht) as H.
  unfold total_ok in H. apply andb_prop in H as [H _].
  now apply RiskLevel_eqb_eq.
Qed.

Lemma questionnaire_level_cutoffs_witness :
  riskLevel (complete (list_to_map [(1, 3); (3, 2); (6, 1)]%nat)) = Medium.
Proof.
  pose proof (questionnaire_level_cutoffs
                (list_to_map [(1, 3); (3, 2); (6, 1)]%nat)) as H.
  rewrite H; vm_compute; [reflexivity | lia].
Defined.

End QuestionnaireProperties.

Section QuestionnaireNavigation.

Import Questionnaire QuestionnaireUI.

Lemma optionValues_bound (i value : nat) :
  optionValues !! i = Some value -> (value <= 3)%nat.
Proof.
  do 4 (destruct i as [| i]; [intros [= <-]; lia |]). discriminate.
Qed.

Lemma initial_invariant : navigationInvariant initial.
Proof.
  split; [cbn; lia |]. split.
  - intros k v H. cbn in H. now rewrite lookup_empty in H.
  - intros i q Hi. cbn in Hi. lia.
Qed.

Lemma answersValid_insert (answers : gmap nat nat) (q : Question)
  (value : nat) :
  answersValid answers -> q ∈ questions -> (value <= 3)%nat ->
  answersValid (<[id q := value]> answers).
Proof.
  intros Hv Hq Hval k v Hk.
  apply lookup_insert_Some in Hk as [[<- <-] | [_ Hk]].
  - split; [exact Hval | now exists q].
  - now apply Hv.
Qed.

Lemma answeredBefore_insert (n : nat) (answers : gmap nat nat)
  (k value : nat) :
  answeredBefore n answers -> answeredBefore n (<[k := value]> answers).
Proof.
  intros Ha i q Hi Hq. apply lookup_insert_is_Some'. right. now apply (Ha i q).
Qed.

Lemma answeredBefore_next (n : nat) (answers : gmap nat nat) (q : Question) :
  answeredBefore n answers ->
  questions !! n = Some q ->
  is_Some (answers !! id q) ->
  answeredBefore (S n) answers.
Proof.
  intros Ha Hq Hs i q' Hi Hq'.
  destruct (decide (i = n)) as [-> | Hne].
  - rewrite Hq in Hq'. injection Hq' as <-. exact Hs.
  - apply (Ha i q'); [lia | exact Hq'].
Qed.

Lemma step_invariant (s : State) (e : Event) :
  navigationInvariant s ->
  match step s e with
  | Some (inl s') => navigationInvariant s'
  | Some (inr r) =>
      r = complete (answers s)
      /\ answersValid (answers s)
      /\ answeredBefore (length questions) (answers s)
  | None => False
  end.
Proof.
  intros (Hlt & Hv & Ha). unfold step, current.
  destruct (questions !! currentQuestion s) as [q |] eqn:Hq;
    [| apply lookup_ge_None in Hq; lia].
  assert (Hin : q ∈ questions) by (eapply list_elem_of_lookup_2, Hq).
  destruct e as [i | |].
  - destruct (optionValues !! i) as [value |] eqn:Hval.
    + apply optionValues_bound in Hval.
      split; [exact Hlt |]. cbn [handleAnswer answers currentQuestion].
      split; [now apply answersValid_insert
             | now apply answeredBefore_insert].
    + now split.
  - unfold hasAnswer. case_bool_decide as Hs; [| now split].
    pose proof (answeredBefore_next _ _ _ Ha Hq Hs) as Hnext.
    unfold handleNext, navigationInvariant.
    change (length questions) with 6%nat in *.
    destruct (currentQuestion s <? 6 - 1)%nat eqn:Hc.
    + apply Nat.ltb_lt in Hc.
      split; [cbn [currentQuestion]; lia |].
      cbn [currentQuestion answers].
      replace (currentQuestion s + 1)%nat with (S (currentQuestion s)) by lia.
      now split.
    + apply Nat.ltb_ge in Hc.
      split; [reflexivity |]. split; [exact Hv |].
      replace 6%nat with (S (currentQuestion s)) by lia. exact Hnext.
  - destruct (currentQuestion s =? 0)%nat eqn:Hc; [now split |].
    apply Nat.eqb_neq in Hc. unfold handlePrevious, navigationInvariant.
    destruct (0 <? currentQuestion s)%nat; [| now split].
    split; [cbn [currentQuestion]; lia |]. cbn [currentQuestion answers].
    split; [exact Hv |].
    intros i q' Hi. apply Ha. lia.
Qed.

Lemma run_invariant (events : list Event) :
  forall s,
    navigationInvariant s ->
    match run s events with
    | Some (inl s') => navigationInvariant s'
    | Some (inr r) =>
        exists s', r = complete (answers s')
                   /\ answersValid (answers s')
                   /\ answeredBefore (length questions) (answers s')
    | None => False
    end.
Proof.
  induction events as [| e events IH]; intros s Hs; cbn [run]; [exact Hs |].
  pose proof (step_invariant s e Hs) as Hstep.
  destruct (step s e) as [[s' | r] |]; [now apply IH | now exists s | exact Hstep].
Qed.

(** X5: whatever the user clicks, the current question index stays
    within the list of questions, so that rendering the current question
    never fails; the answers stored are option values of the questions, and
    every question before the current one is answered. *)
Theorem navigation_stays_in_range (events : list Event) :
  run initial events <> None
  /\ forall s,
       run initial events = Some (inl s) ->
       (currentQuestion s < length questions)%nat
       /\ is_Some (current s)
       /\ answersValid (answers s)
       /\ answeredBefore (currentQuestion s) (answers s).
Proof.
  pose proof (run_invariant events initial initial_invariant) as H.
  split.
  - intros E. now rewrite E in H.
  - intros s E. rewrite E in H. destruct H as (Hlt & Hv & Ha).
    split; [exact Hlt |]. split; [| now split].
    now apply lookup_lt_is_Some.
Qed.

Lemma navigation_stays_in_range_witness :
  is_Some (current {| currentQuestion := 0;
                      answers := <[1%nat := 2%nat]> ∅ |}).
Proof.
  apply (navigation_stays_in_range
           [SelectOption 2; ClickNext; ClickPrevious; ClickPrevious]).
  reflexivity.
Defined.

(** X6: when the questionnaire completes, whatever the sequence of
    clicks before, all six questions have an answer between 0 and 3, no
    other key is stored, and the total is at most the maximum total, 18. *)
Theorem completion_has_all_answers (events : list Event) (r : Result) :
  run initial events = Some (inr r) ->
  (forall q, q ∈ questions ->
             exists v, Questionnaire.answers r !! id q = Some v
                       /\ (v <= 3)%nat)
  /\ (forall k, is_Some (Questionnaire.answers r !! k) ->
                exists q, q ∈ questions /\ id q = k)
  /\ r = complete (Questionnaire.answers r)
  /\ (totalScore r <= 18)%nat
  /\ maxTotalScore r = 18%nat.
Proof.
  intros E.
  pose proof (run_invariant events initial initial_invariant) as H.
  rewrite E in H. destruct H as (s & -> & Hv & Ha).
  change (Questionnaire.answers (complete (answers s))) with (answers s).
  assert (Ht : (totalScore (complete (answers s)) <= 18)%nat)
    by now apply totalScore_at_most_18.
  split.
  - intros q Hq. apply list_elem_of_lookup in Hq as [i Hi].
    pose proof (lookup_lt_Some _ _ _ Hi) as Hlt.
    destruct (Ha i q Hlt Hi) as [v Hvq].
    exists v. split; [exact Hvq | now apply (Hv (id q) v)].
  - split; [intros k [v Hk]; now apply (Hv k v) |].
    split; [reflexivity |]. split; [exact Ht |]. reflexivity.
Qed.

Lemma completion_has_all_answers_witness :
  (totalScore
     (complete (<[6 := 1]> (<[5 := 1]> (<[4 := 1]> (<[3 := 1]>
                  (<[2 := 1]> (<[1 := 1]> ∅)))))))
   <= 18)%nat.
Proof.
  apply (completion_has_all_answers
           [SelectOption 1; ClickNext; SelectOption 1; ClickNext;
            SelectOption 1; ClickNext; SelectOption 1; ClickNext;
            SelectOption 1; ClickNext; SelectOption 1; ClickNext]).
  reflexivity.
Defined.

End QuestionnaireNavigation.

(** ** Classifiers: levels by number of flags, flags by counts *)

Section ClassifierProperties.

Local Open Scope float_scope.

Lemma riskScoreOf_four (a b c d : bool) :
  riskScoreOf [a; b; c; d]
  = JS.of_nat (length (List.filter (fun x : bool => x) [a; b; c; d]))
    / JS.of_nat 4
  /\ riskLevelOf (riskScoreOf [a; b; c; d])
     = levelOfFour (length (List.filter (fun x : bool => x) [a; b; c; d])).
Proof. destruct a, b, c, d; split; vm_compute; reflexivity. Qed.

Lemma riskScoreOf_five (a b c d e : bool) :
  riskScoreOf [a; b; c; d; e]
  = JS.of_nat (length (List.filter (fun x : bool => x) [a; b; c; d; e]))
    / JS.of_nat 5
  /\ riskLevelOf (riskScoreOf [a; b; c; d; e])
     = levelOfFive (length (List.filter (fun x : bool => x) [a; b; c; d; e])).
Proof. destruct a, b, c, d, e; split; vm_compute; reflexivity. Qed.

Lemma eye_level_by_flag_count_aux (m : EyeTracking.EyeMetrics) :
  let r := EyeTracking.stopRecording m in
  let k := length (List.filter (fun x : bool => x)
                               (EyeTracking.values (EyeTracking.indicators r))) in
  (k <= 4)%nat
  /\ EyeTracking.riskScore r = JS.of_nat k / JS.of_nat 4
  /\ EyeTracking.riskLevel r = levelOfFour k.
Proof.
  intros r k. split.
  - unfold k. etransitivity; [apply filter_length_bound | reflexivity].
  - unfold k.
    change (EyeTracking.riskLevel r)
      with (riskLevelOf (riskScoreOf (EyeTracking.values
                                        (EyeTracking.indicators r)))).
    change (EyeTracking.riskScore r)
      with (riskScoreOf (EyeTracking.values (EyeTracking.indicators r))).
    destruct (EyeTracking.indicators r) as [a b c d].
    apply (riskScoreOf_four a b c d).
Qed.

Lemma facial_level_by_flag_count_aux (m : FacialAnalysis.FacialMetrics) :
  let r := FacialAnalysis.stopRecording m in
  let k := length (List.filter (fun x : bool => x)
                               (FacialAnalysis.values
                                  (FacialAnalysis.indicators r))) in
  (k <= 5)%nat
  /\ FacialAnalysis.riskScore r = JS.of_nat k / JS.of_nat 5
  /\ FacialAnalysis.riskLevel r = levelOfFive k.
Proof.
  intros r k. split.
  - unfold k. etransitivity; [apply filter_length_bound | reflexivity].
  - unfold k.
    change (FacialAnalysis.riskLevel r)
      with (riskLevelOf (riskScoreOf (FacialAnalysis.values
                                        (FacialAnalysis.indicators r)))).
    change (FacialAnalysis.riskScore r)
      with (riskScoreOf (FacialAnalysis.values
                           (FacialAnalysis.indicators r))).
    destruct (FacialAnalysis.indicators r) as [a b c d e].
    apply (riskScoreOf_five a b c d e).
Qed.

(** X10: the eye-tracking level depends only on the number of set flags:
    High with 3 or 4, Medium with exactly 2, Low with at most 1. *)
Theorem eye_level_by_flag_count (m : EyeTracking.EyeMetrics) :
  let r := EyeTracking.stopRecording m in
  let k := length (List.filter (fun x : bool => x)
                               (EyeTracking.values (EyeTracking.indicators r))) in
  (k <= 4)%nat
  /\ EyeTracking.riskScore r = JS.of_nat k / JS.of_nat 4
  /\ EyeTracking.riskLevel r = levelOfFour k.
Proof. exact (eye_level_by_flag_count_aux m). Qed.

(** X11: the facial-analysis level depends only on the number of set
    flags: High with 4 or 5, Medium with 2 or 3, Low with at most 1. *)
Theorem facial_level_by_flag_count (m : FacialAnalysis.FacialMetrics) :
  let r := FacialAnalysis.stopRecording m in
  let k := length (List.filter (fun x : bool => x)
                               (FacialAnalysis.values
                                  (FacialAnalysis.indicators r))) in
  (k <= 5)%nat
  /\ FacialAnalysis.riskScore r = JS.of_nat k / JS.of_nat 5
  /\ FacialAnalysis.riskLevel r = levelOfFive k.
Proof. exact (facial_level_by_flag_count_aux m). Qed.

Lemma count_flags_ok_1000 : forall_upto 1000 count_flags_ok = true.
Proof. vm_compute. reflexivity. Qed.

Lemma count_flags (n : nat) :
  (n <= 1000)%nat ->
  JS.lt (JS.of_nat n / (30 / 60)) 30 = (n <? 15)%nat
  /\ JS.lt (JS.of_nat n / 30 * 60) 10 || JS.gt (JS.of_nat n / 30 * 60) 25
     = (n <? 5)%nat || (12 <? n)%nat
  /\ JS.lt (JS.of_nat n / 45 * 100) 40 = (n <? 18)%nat.
Proof.
  intros Hn.
  pose proof (forall_upto_spec _ _ count_flags_ok_1000 n Hn) as H.
  unfold count_flags_ok in H.
  apply andb_prop in H as [H H3]. apply andb_prop in H as [H1 H2].
  apply Bool.eqb_prop in H1, H2, H3. now repeat split.
Qed.

(** X12: for a recording of at most 1000 ticks, the eye-tracking rate
    flags are decided by the numbers of detections: lowSaccadicRate iff
    fewer than 15 saccades, atypicalBlinking iff fewer than 5 or more than
    12 blinks. *)
Theorem eye_flags_by_counts (ticks : list EyeTracking.Draws) :
  (length ticks <= 1000)%nat ->
  let r := EyeTracking.stopRecording (EyeTracking.record ticks) in
  let saccades :=
    length (List.filter (fun d => JS.gt (EyeTracking.r_saccade d) 0.7) ticks) in
  let blinks :=
    length (List.filter (fun d => JS.gt (EyeTracking.r_blink d) 0.95) ticks) in
  EyeTracking.lowSaccadicRate (EyeTracking.indicators r) = (saccades <? 15)%nat
  /\ EyeTracking.atypicalBlinking (EyeTracking.indicators r)
     = (blinks <? 5)%nat || (12 <? blinks)%nat.
Proof.
  intros Hlen r saccades blinks.
  destruct (eye_counters ticks EyeTracking.initialMetrics 0 0
              eq_refl eq_refl Hlen Hlen) as [Hs Hb].
  cbn [Nat.add] in Hs, Hb. fold saccades in Hs. fold blinks in Hb.
  assert (Hs' : (saccades <= 1000)%nat).
  { unfold saccades. etransitivity; [apply filter_length_bound | exact Hlen]. }
  assert (Hb' : (blinks <= 1000)%nat).
  { unfold blinks. etransitivity; [apply filter_length_bound | exact Hlen]. }
  unfold r, EyeTracking.stopRecording;
    cbn [EyeTracking.indicators EyeTracking.lowSaccadicRate
         EyeTracking.atypicalBlinking].
  unfold EyeTracking.record. rewrite Hs, Hb.
  split.
  - apply (count_flags saccades Hs').
  - apply (count_flags blinks Hb').
Qed.

Lemma eye_flags_by_counts_witness :
  EyeTracking.lowSaccadicRate
    (EyeTracking.indicators
       (EyeTracking.stopRecording
          (EyeTracking.record
             [ {| EyeTracking.r_fixation := 0.5; EyeTracking.r_saccade := 0.9;
                  EyeTracking.r_blink := 0.5; EyeTracking.r_gaze := 0.5 |} ])))
  = true.
Proof.
  eapply eq_trans;
    [apply (eye_flags_by_counts
              [ {| EyeTracking.r_fixation := 0.5;
                   EyeTracking.r_saccade := 0.9;
                   EyeTracking.r_blink := 0.5;
                   EyeTracking.r_gaze := 0.5 |} ]); simpl; lia
    | reflexivity].
Defined.

(** X13: for a recording of at most 1000 ticks, lowEyeContact is set iff
    eye contact was detected on fewer than 18 ticks. *)
Theorem eye_contact_flag_by_count (ticks : list FacialAnalysis.Draws) :
  (length ticks <= 1000)%nat ->
  let r := FacialAnalysis.stopRecording (FacialAnalysis.record ticks) in
  FacialAnalysis.lowEyeContact (FacialAnalysis.indicators r)
  = (length (List.filter
               (fun d => JS.gt (FacialAnalysis.r_eyeContact d) 0.4) ticks)
     <? 18)%nat.
Proof.
  intros Hlen r.
  pose proof (face_counter ticks FacialAnalysis.initialMetrics 0
                eq_refl Hlen) as Hc.
  cbn [Nat.add] in Hc.
  unfold r, FacialAnalysis.stopRecording;
    cbn [FacialAnalysis.indicators FacialAnalysis.lowEyeContact].
  unfold FacialAnalysis.record. rewrite Hc.
  apply count_flags.
  etransitivity; [apply filter_length_bound | exact Hlen].
Qed.

Lemma eye_contact_flag_by_count_witness :
  FacialAnalysis.lowEyeContact
    (FacialAnalysis.indicators
       (FacialAnalysis.stopRecording
          (FacialAnalysis.record
             [ {| FacialAnalysis.r_emotion := 0;
                  FacialAnalysis.r_eyeContact := 0.9;
                  FacialAnalysis.r_micro := 0.5;
                  FacialAnalysis.r_microIndex := 0;
                  FacialAnalysis.r_symmetry := 0.5 |} ])))
  = true.
Proof.
  eapply eq_trans;
    [apply (eye_contact_flag_by_count
              [ {| FacialAnalysis.r_emotion := 0;
                   FacialAnalysis.r_eyeContact := 0.9;
                   FacialAnalysis.r_micro := 0.5;
                   FacialAnalysis.r_microIndex := 0;
                   FacialAnalysis.r_symmetry := 0.5 |} ]); simpl; lia
    | reflexivity].
Defined.

Lemma eye_fixation_count (ticks : list EyeTracking.Draws) :
  forall m,
    length (EyeTracking.fixationDuration
              (fold_left EyeTracking.simulateEyeTracking ticks m))
    = (length (EyeTracking.fixationDuration m) + length ticks)%nat.
Proof.
  induction ticks as [| d ticks IH]; intros m; cbn [fold_left length].
  - lia.
  - rewrite IH. cbn [EyeTracking.simulateEyeTracking
                       EyeTracking.fixationDuration].
    rewrite length_app. cbn [length]. lia.
Qed.

(** X14: every tick adds one fixation sample, but gaze stability is
    overwritten: after a recording, the reported gaze stability and the
    poorGazeStability flag are those of the last tick alone. *)
Theorem gaze_stability_is_last_tick
  (ticks : list EyeTracking.Draws) (d : EyeTracking.Draws) :
  let m := EyeTracking.record (ticks ++ [d]) in
  let r := EyeTracking.stopRecording m in
  length (EyeTracking.fixationDuration m) = S (length ticks)
  /\ EyeTracking.metrics_gazeStability (EyeTracking.metrics r)
     = EyeTracking.r_gaze d * 0.8 + 0.1
  /\ EyeTracking.poorGazeStability (EyeTracking.indicators r)
     = JS.lt (EyeTracking.r_gaze d * 0.8 + 0.1) 0.6.
Proof.
  intros m r. unfold r, m, EyeTracking.record. split.
  - rewrite eye_fixation_count, length_app. cbn. lia.
  - rewrite fold_left_app. cbn [fold_left]. split; reflexivity.
Qed.

(** X15: likewise the facial symmetry score is overwritten by every
    tick: the reported symmetry and the facialAsymmetry flag are those of
    the last tick alone. *)
Theorem facial_symmetry_is_last_tick
  (ticks : list FacialAnalysis.Draws) (d : FacialAnalysis.Draws) :
  let r := FacialAnalysis.stopRecording
             (FacialAnalysis.record (ticks ++ [d])) in
  FacialAnalysis.facialSymmetry (FacialAnalysis.metrics r)
  = FacialAnalysis.r_symmetry d * 0.3 + 0.7
  /\ FacialAnalysis.landmarksDetected (FacialAnalysis.metrics r) = 468
  /\ FacialAnalysis.facialAsymmetry (FacialAnalysis.indicators r)
     = JS.lt (FacialAnalysis.r_symmetry d * 0.3 + 0.7) 0.8.
Proof.
  intros r. unfold r, FacialAnalysis.record.
  rewrite fold_left_app. cbn [fold_left]. repeat split.
Qed.

Lemma or0_not_NaN (x : float) : JS.isNaN (JS.or0 x) = false.
Proof.
  unfold JS.or0, JS.truthy.
  destruct (PrimFloat.eqb x 0); cbn [orb negb]; [reflexivity |].
  destruct (JS.isNaN x) eqn:E; cbn [negb]; [reflexivity | exact E].
Qed.

(** X16: the reported average fixation duration is never NaN, whatever
    the accumulator holds (an undefined mean is reported as 0), and it is
    never negative zero. *)
Theorem avgFixationDuration_defined (m : EyeTracking.EyeMetrics) :
  let avg := EyeTracking.avgFixationDuration
               (EyeTracking.metrics (EyeTracking.stopRecording m)) in
  JS.isNaN avg = false
  /\ Prim2SF avg <> S754_zero true
  /\ (EyeTracking.fixationDuration m = [] ->
      avg = 0
      /\ EyeTracking.longFixations
           (EyeTracking.indicators (EyeTracking.stopRecording m)) = false).
Proof.
  intros avg. unfold avg, EyeTracking.stopRecording;
    cbn [EyeTracking.metrics EyeTracking.avgFixationDuration
         EyeTracking.indicators EyeTracking.longFixations].
  split; [apply or0_not_NaN |]. split; [apply or0_not_negative_zero |].
  intros ->. split; vm_compute; reflexivity.
Qed.

Lemma avgFixationDuration_defined_witness :
  EyeTracking.avgFixationDuration
    (EyeTracking.metrics (EyeTracking.stopRecording EyeTracking.initialMetrics))
  = 0.
Proof.
  apply (avgFixationDuration_defined EyeTracking.initialMetrics).
  reflexivity.
Defined.

End ClassifierProperties.

(** ** Facial accumulator: labels, micro-expressions, tallies *)

Section FacialAccumulator.

Local Open Scope float_scope.

Import FacialAnalysis.

Lemma increment_length (key : string) (obj : list (string * float)) :
  (length obj <= length (increment key obj))%nat.
Proof.
  induction obj as [| [k v] obj IH]; cbn [increment length]; [lia |].
  destruct (String.eqb k key); cbn [length]; lia.
Qed.

Lemma increment_keys (key : string) (obj : list (string * float)) :
  In key (map fst obj) -> map fst (increment key obj) = map fst obj.
Proof.
  induction obj as [| [k v] obj IH]; cbn [increment map fst In]; [tauto |].
  intros Hin. destruct (String.eqb k key) eqn:E; [reflexivity |].
  cbn [map fst]. f_equal. apply IH.
  destruct Hin as [-> | Hin]; [| exact Hin].
  now rewrite String.eqb_refl in E.
Qed.

Lemma emotion_in_range (i : nat) :
  (i < 6)%nat -> In (nth i emotions "undefined"%string) emotions.
Proof.
  intros Hi. apply nth_In. exact Hi.
Qed.

Lemma distribution_labels (m : FacialMetrics) :
  map emotion (emotionDistribution (metrics (stopRecording m)))
  = map fst (emotionDetection m)
  /\ length (emotionDistribution (metrics (stopRecording m)))
     = length (emotionDetection m).
Proof.
  unfold stopRecording; cbn [metrics emotionDistribution].
  split; [| apply length_map].
  induction (emotionDetection m) as [| [k c] l IH]; cbn [map fst emotion];
    [reflexivity | now f_equal].
Qed.

Lemma record_labels (ticks : list Draws) :
  forall m,
    (6 <= length (emotionDetection m))%nat ->
    (6 <= length (emotionDetection
                    (fold_left simulateFacialAnalysis ticks m)))%nat
    /\ (Forall (fun d => (r_emotion d < 6)%nat) ticks ->
        map fst (emotionDetection m) = emotions ->
        map fst (emotionDetection (fold_left simulateFacialAnalysis ticks m))
        = emotions).
Proof.
  induction ticks as [| d ticks IH]; intros m Hm; cbn [fold_left].
  - now split.
  - assert (Hm' : (6 <= length (emotionDetection
                                  (simulateFacialAnalysis m d)))%nat).
    { cbn [simulateFacialAnalysis emotionDetection].
      etransitivity; [exact Hm | apply increment_length]. }
    destruct (IH _ Hm') as [Hlen Hkeys]. split; [exact Hlen |].
    intros Hall Hk. apply Forall_cons in Hall as [Hd Hall].
    apply Hkeys; [exact Hall |].
    cbn [simulateFacialAnalysis emotionDetection].
    rewrite increment_keys; [exact Hk |].
    rewrite Hk. now apply emotion_in_range.
Qed.

(** X17: the emotion distribution of a recording always has at least
    six entries, and exactly the six labels, in their fixed order, when
    every drawn emotion index is below 6: the distribution lists the label
    vocabulary, not the emotions observed. *)
Theorem distribution_lists_all_labels (ticks : list Draws) :
  let r := stopRecording (record ticks) in
  (6 <= length (emotionDistribution (metrics r)))%nat
  /\ (Forall (fun d => (r_emotion d < 6)%nat) ticks ->
      map emotion (emotionDistribution (metrics r)) = emotions
      /\ length (emotionDistribution (metrics r)) = 6%nat).
Proof.
  intros r. unfold r.
  destruct (distribution_labels (record ticks)) as [Hlab Hlen].
  destruct (record_labels ticks initialMetrics) as [H6 Hkeys];
    [cbn; lia |].
  split; [rewrite Hlen; exact H6 |].
  intros Hall.
  assert (map emotion (emotionDistribution (metrics (stopRecording (record ticks))))
          = emotions) as E.
  { rewrite Hlab. now apply Hkeys. }
  split; [exact E |].
  rewrite <- (length_map emotion), E. reflexivity.
Qed.

Lemma distribution_lists_all_labels_witness :
  length (emotionDistribution
            (metrics (stopRecording
                        (record [ {| r_emotion := 3; r_eyeContact := 0.9;
                                     r_micro := 0.5; r_microIndex := 0;
                                     r_symmetry := 0.5 |} ]))))
  = 6%nat.
Proof.
  apply (distribution_lists_all_labels
           [ {| r_emotion := 3; r_eyeContact := 0.9; r_micro := 0.5;
                r_microIndex := 0; r_symmetry := 0.5 |} ]).
  repeat constructor.
Defined.

Lemma record_micro_labels (ticks : list Draws) :
  Forall (fun d => (r_microIndex d < 4)%nat) ticks ->
  forall m,
    (forall x, x ∈ microExpressions m -> x ∈ microExpressionLabels) ->
    forall x,
      x ∈ microExpressions (fold_left simulateFacialAnalysis ticks m) ->
      x ∈ microExpressionLabels.
Proof.
  induction 1 as [| d ticks Hd _ IH]; intros m Hm; cbn [fold_left];
    [exact Hm |].
  apply IH. intros x.
  cbn [simulateFacialAnalysis microExpressions].
  destruct (JS.gt (r_micro d) 0.8); [| apply Hm].
  destruct (negb (includes _ (microExpressions m))); [| apply Hm].
  intros Hx. apply elem_of_app in Hx as [Hx | Hx]; [now apply Hm |].
  apply list_elem_of_singleton in Hx as ->.
  apply list_elem_of_In, nth_In. exact Hd.
Qed.

(** X18: the micro-expressions of a recording are distinct labels of the
    fixed list of four (the drawn indices being below 4), so at most four
    are ever reported. *)
Theorem micro_expressions_bounded (ticks : list Draws) :
  Forall (fun d => (r_microIndex d < 4)%nat) ticks ->
  let reported :=
    metrics_microExpressions (metrics (stopRecording (record ticks))) in
  NoDup reported
  /\ (forall x, x ∈ reported -> x ∈ microExpressionLabels)
  /\ (length reported <= 4)%nat.
Proof.
  intros Hall reported.
  assert (Hnd : NoDup reported) by apply record_NoDup.
  assert (Hsub : forall x, x ∈ reported -> x ∈ microExpressionLabels).
  { apply (record_micro_labels ticks Hall initialMetrics).
    intros x Hx. cbn in Hx. now apply elem_of_nil in Hx. }
  split; [exact Hnd |]. split; [exact Hsub |].
  change 4%nat with (length microExpressionLabels).
  apply submseteq_length, NoDup_submseteq; assumption.
Qed.

Lemma micro_expressions_bounded_witness :
  (length (metrics_microExpressions
             (metrics (stopRecording
                         (record [ {| r_emotion := 3; r_eyeContact := 0.9;
                                      r_micro := 0.9; r_microIndex := 2;
                                      r_symmetry := 0.5 |} ]))))
   <= 4)%nat.
Proof.
  apply (micro_expressions_bounded
           [ {| r_emotion := 3; r_eyeContact := 0.9; r_micro := 0.9;
                r_microIndex := 2; r_symmetry := 0.5 |} ]).
  repeat constructor.
Defined.

End FacialAccumulator.

(** ** Recording timer *)

Section TimerProperties.

(** X21: the displayed recording time after n interval callbacks is
    min(n, RECORDING_DURATION): it never exceeds the configured duration,
    and the callback stops the recording exactly from the tick at which
    the duration is reached. *)
Theorem timer_saturates (RECORDING_DURATION n : nat) :
  Timer.after RECORDING_DURATION n = Nat.min n RECORDING_DURATION
  /\ (snd (Timer.tick RECORDING_DURATION (Timer.after RECORDING_DURATION n))
      = true <-> (RECORDING_DURATION <= S n)%nat).
Proof.
  assert (H : Timer.after RECORDING_DURATION n = Nat.min n RECORDING_DURATION).
  { induction n as [| n IH]; [reflexivity |].
    cbn [Timer.after]. rewrite IH. unfold Timer.tick.
    destruct (RECORDING_DURATION <=? Nat.min n RECORDING_DURATION + 1)%nat
      eqn:E; cbn [fst].
    - apply Nat.leb_le in E. lia.
    - apply Nat.leb_gt in E. lia. }
  split; [exact H |].
  rewrite H. unfold Timer.tick.
  destruct (RECORDING_DURATION <=? Nat.min n RECORDING_DURATION + 1)%nat
    eqn:E; cbn [snd].
  - apply Nat.leb_le in E. split; [lia | reflexivity].
  - apply Nat.leb_gt in E. split; [discriminate | lia].
Qed.

End TimerProperties.

(** ** Combiner and prediction factors on the results of the stages *)

Section ResultsProperties.

Local Open Scope float_scope.

Implicit Types data : gmap AssessmentStage StageData.

Lemma combine_ok_all :
  forall_upto 18 (fun t =>
    forall_upto 4 (fun k => forall_upto 5 (fun j => combine_ok t k j)))
  = true.
Proof. vm_compute. reflexivity. Qed.

Lemma combine_ok_at (t k j : nat) :
  (t <= 18)%nat -> (k <= 4)%nat -> (j <= 5)%nat -> combine_ok t k j = true.
Proof.
  intros Ht Hk Hj.
  pose proof (forall_upto_spec _ _ combine_ok_all t Ht) as H1. cbv beta in H1.
  pose proof (forall_upto_spec _ _ H1 k Hk) as H2. cbv beta in H2.
  exact (forall_upto_spec _ _ H2 j Hj).
Qed.

Lemma levelRank_inj (a b : RiskLevel) : levelRank a = levelRank b -> a = b.
Proof. destruct a, b; cbn; congruence. Qed.

(** X20: when the three entries are results of the three stage
    components (questionnaire total at most 18), the overall score lies in
    [0, 1] and the overall level is neither below the lowest nor above the
    highest of the three stage levels; in particular, three equal stage
    levels give that level. *)
Theorem overall_within_stage_levels
  (answers : gmap nat nat) (m : EyeTracking.EyeMetrics)
  (fm : FacialAnalysis.FacialMetrics) :
  (Questionnaire.totalScore (Questionnaire.complete answers) <= 18)%nat ->
  let q := Questionnaire.complete answers in
  let e := EyeTracking.stopRecording m in
  let f := FacialAnalysis.stopRecording fm in
  let data : gmap AssessmentStage StageData :=
    <[facialAnalysis := FacialAnalysisData f]>
      (<[eyeTracking := EyeTrackingData e]>
         (<[questionnaire := QuestionnaireData q]> ∅)) in
  let overall := Results.level (Results.calculateOverallRisk data) in
  JS.le 0 (Results.avgRisk data) = true
  /\ JS.le (Results.avgRisk data) 1 = true
  /\ (Nat.min (levelRank (Questionnaire.riskLevel q))
              (Nat.min (levelRank (EyeTracking.riskLevel e))
                       (levelRank (FacialAnalysis.riskLevel f)))
      <= levelRank overall)%nat
  /\ (levelRank overall
      <= Nat.max (levelRank (Questionnaire.riskLevel q))
                 (Nat.max (levelRank (EyeTracking.riskLevel e))
                          (levelRank (FacialAnalysis.riskLevel f))))%nat
  /\ (forall l,
        Questionnaire.riskLevel q = l -> EyeTracking.riskLevel e = l ->
        FacialAnalysis.riskLevel f = l -> overall = l).
Proof.
  intros Ht q e f data overall.
  destruct (eye_level_by_flag_count_aux m) as (Hk & Hes & Hel).
  destruct (facial_level_by_flag_count_aux fm) as (Hj & Hfs & Hfl).
  set (k := length (List.filter (fun x : bool => x)
                      (EyeTracking.values (EyeTracking.indicators e)))) in *.
  set (j := length (List.filter (fun x : bool => x)
                      (FacialAnalysis.values
                         (FacialAnalysis.indicators f)))) in *.
  set (t := Questionnaire.totalScore q) in *.
  assert (Havg : Results.avgRisk data = avgOfCounts t k j) by reflexivity.
  assert (Hq : Questionnaire.riskLevel q
               = riskLevelOf (JS.of_nat t / JS.of_nat 18))
    by apply complete_riskLevel.
  assert (He : EyeTracking.riskLevel e
               = riskLevelOf (JS.of_nat k / JS.of_nat 4)) by reflexivity.
  assert (Hf : FacialAnalysis.riskLevel f
               = riskLevelOf (JS.of_nat j / JS.of_nat 5)) by reflexivity.
  pose proof (combine_ok_at t k j Ht Hk Hj) as Hok.
  unfold combine_ok in Hok. cbv zeta in Hok.
  apply andb_prop in Hok as [Hok Hmax]. apply andb_prop in Hok as [Hok Hmin].
  apply andb_prop in Hok as [H0 H1].
  apply Nat.leb_le in Hmin, Hmax.
  assert (Ho : overall = riskLevelOf (avgOfCounts t k j)).
  { unfold overall. now rewrite calculateOverallRisk_level, Havg. }
  rewrite Havg, Hq, He, Hf, Ho.
  split; [exact H0 |]. split; [exact H1 |].
  split; [exact Hmin |]. split; [exact Hmax |].
  intros l E1 E2 E3. rewrite E1, E2, E3 in Hmin, Hmax.
  rewrite !Nat.min_id in Hmin. rewrite !Nat.max_id in Hmax.
  apply levelRank_inj. lia.
Qed.

Lemma overall_within_stage_levels_witness :
  JS.le (Results.avgRisk
           (<[facialAnalysis :=
                FacialAnalysisData
                  (FacialAnalysis.stopRecording FacialAnalysis.initialMetrics)]>
              (<[eyeTracking :=
                   EyeTrackingData
                     (EyeTracking.stopRecording EyeTracking.initialMetrics)]>
                 (<[questionnaire :=
                      QuestionnaireData (Questionnaire.complete ∅)]> ∅))))
        1 = true.
Proof.
  apply (overall_within_stage_levels ∅ EyeTracking.initialMetrics
           FacialAnalysis.initialMetrics).
  vm_compute. repeat constructor.
Defined.

(** X22: when the application shows the results, the prediction factors
    are computed without error and there are exactly three, for the
    questionnaire, eye tracking and facial analysis, in this order. *)
Theorem factors_on_results (s : Session.State) :
  Flow.reachable s ->
  Session.currentStage s = results ->
  exists fq fe ff,
    Reasoning.getPredictionReasoning (Session.assessmentData s)
    = Some [fq; fe; ff]
    /\ Reasoning.factor fq = "Behavioral Questionnaire"%string
    /\ Reasoning.factor fe = "Eye Tracking Analysis"%string
    /\ Reasoning.factor ff = "Facial Expression Analysis"%string.
Proof.
  intros Hr Hres.
  destruct (reachable_results_payloads s Hr Hres) as (q & e & f & Hq & He & Hf).
  unfold Reasoning.getPredictionReasoning. rewrite Hq, He, Hf.
  cbn [Reasoning.eyeTrackingFactor Reasoning.facialAnalysisFactor
       option_map app].
  do 3 eexists. split; [reflexivity |]. split; [reflexivity |].
  split; [| destruct (_ || _)%bool; [| destruct (_ || _)%bool]]; reflexivity.
Qed.

Lemma factors_on_results_witness :
  exists fq fe ff,
    Reasoning.getPredictionReasoning (dataWith 6 18 0.75 0.8)
    = Some [fq; fe; ff]
    /\ Reasoning.factor fq = "Behavioral Questionnaire"%string
    /\ Reasoning.factor fe = "Eye Tracking Analysis"%string
    /\ Reasoning.factor ff = "Facial Expression Analysis"%string.
Proof.
  apply (factors_on_results
           {| Session.currentStage := results;
              Session.assessmentData := dataWith 6 18 0.75 0.8;
              Session.progress := 100 |}); [| reflexivity].
  apply (Flow.reachable_complete
           {| Session.currentStage := facialAnalysis;
              Session.assessmentData :=
                <[eyeTracking := eyeTrackingWith 0.75]>
                  (<[questionnaire := questionnaireWith 6 18]> ∅);
              Session.progress := Session.updateProgress eyeTracking |}
           (facialAnalysisWith 0.8)); [| reflexivity | reflexivity].
  apply (Flow.reachable_complete
           {| Session.currentStage := eyeTracking;
              Session.assessmentData :=
                <[questionnaire := questionnaireWith 6 18]> ∅;
              Session.progress := Session.updateProgress questionnaire |}
           (eyeTrackingWith 0.75)); [| reflexivity | reflexivity].
  apply (Flow.reachable_complete (Session.begin Session.initial)
           (questionnaireWith 6 18)); [| reflexivity | reflexivity].
  apply Flow.reachable_begin.
Defined.

(** X23: computing the prediction factors fails exactly when the
    eye-tracking entry or the facial-analysis entry holds a payload of
    another stage; a payload of another stage under the questionnaire key
    is tolerated.  When it succeeds there is one factor per available
    stage (a missing stage gives no factor). *)
Theorem factors_fail_on_foreign_payload data :
  (is_Some (Reasoning.getPredictionReasoning data) <->
   (forall d, data !! eyeTracking = Some d -> origin d = eyeTracking)
   /\ (forall d, data !! facialAnalysis = Some d -> origin d = facialAnalysis))
  /\ (forall factors,
        Reasoning.getPredictionReasoning data = Some factors ->
        length factors
        = (from_option (fun _ => 1) 0 (data !! questionnaire)
           + from_option (fun _ => 1) 0 (data !! eyeTracking)
           + from_option (fun _ => 1) 0 (data !! facialAnalysis))%nat).
Proof.
  unfold Reasoning.getPredictionReasoning.
  destruct (data !! questionnaire) as [dq |];
    destruct (data !! eyeTracking) as [[] |];
    destruct (data !! facialAnalysis) as [[] |];
    cbn [Reasoning.eyeTrackingFactor Reasoning.facialAnalysisFactor
         option_map app from_option];
    (split;
     [ split;
       [ intros [x Hx]; try discriminate Hx;
         split; intros d [= <-]; reflexivity
       | intros [H1 H2];
         try (specialize (H1 _ eq_refl); discriminate H1);
         try (specialize (H2 _ eq_refl); discriminate H2);
         eexists; reflexivity ]
     | intros factors [= <-]; reflexivity ]).
Qed.

Lemma factors_fail_on_foreign_payload_witness :
  length [Reasoning.questionnaireFactor (questionnaireWith 6 18)] = 1%nat.
Proof.
  exact (proj2 (factors_fail_on_foreign_payload
                  {[ questionnaire := questionnaireWith 6 18 ]})
               [Reasoning.questionnaireFactor (questionnaireWith 6 18)]
               eq_refl).
Defined.

(** X24: for a questionnaire result with a total of at most 18, the
    impact of the behavioral factor (thresholds 60 and 30 on the
    percentage) is the questionnaire's own risk level (thresholds 0.6 and
    0.3 on the ratio), and the confidence is 85, 65 or 90 accordingly. *)
Theorem behavioral_impact_is_risk_level (answers : gmap nat nat) :
  (Questionnaire.totalScore (Questionnaire.complete answers) <= 18)%nat ->
  let r := Questionnaire.complete answers in
  let f := Reasoning.questionnaireFactor (QuestionnaireData r) in
  Reasoning.impact f = Questionnaire.riskLevel r
  /\ Reasoning.confidence f
     = match Questionnaire.riskLevel r with
       | High => 85 | Medium => 65 | Low => 90
       end.
Proof.
  intros Ht r f. subst r f.
  pose proof (forall_upto_spec _ _ total_ok_18 _ Ht) as H.
  unfold total_ok in H. cbv zeta in H.
  apply andb_prop in H as [H1 H2].
  apply RiskLevel_eqb_eq in H1, H2.
  rewrite complete_riskLevel.
  change (Questionnaire.maxTotalScore (Questionnaire.complete answers))
    with 18%nat.
  rewrite H1, <- H2.
  unfold Reasoning.questionnaireFactor;
    cbn [Reasoning.impact Reasoning.confidence Results.totalScore
         Results.maxTotalScore JS.toNumber].
  change (Questionnaire.maxTotalScore (Questionnaire.complete answers))
    with 18%nat.
  destruct (JS.gt _ 60); [now split |].
  destruct (JS.gt _ 30); now split.
Qed.

Lemma behavioral_impact_is_risk_level_witness :
  Reasoning.impact
    (Reasoning.questionnaireFactor
       (QuestionnaireData (Questionnaire.complete ∅)))
  = Questionnaire.riskLevel (Questionnaire.complete ∅).
Proof.
  apply (behavioral_impact_is_risk_level ∅).
  vm_compute. repeat constructor.
Defined.

(** X25: for the result of a facial recording, the impact of the facial
    factor depends on the eye-contact rate alone (High below 40, Medium
    below 60, else Low): the emotion count it also tests is the number of
    labels, at least 6, so those tests never hold; the impact is High
    exactly when the lowEyeContact flag is set. *)
Theorem facial_impact_by_eye_contact (ticks : list FacialAnalysis.Draws) :
  let r := FacialAnalysis.stopRecording (FacialAnalysis.record ticks) in
  let rate := FacialAnalysis.eyeContactRate (FacialAnalysis.metrics r) in
  exists f,
    Reasoning.facialAnalysisFactor (FacialAnalysisData r) = Some f
    /\ Reasoning.impact f
       = (if JS.lt rate 40 then High
          else if JS.lt rate 60 then Medium else Low)
    /\ (Reasoning.impact f = High <->
        FacialAnalysis.lowEyeContact (FacialAnalysis.indicators r) = true).
Proof.
  intros r rate.
  destruct (distribution_labels (FacialAnalysis.record ticks)) as [_ Hlen].
  destruct (record_labels ticks FacialAnalysis.initialMetrics) as [H6 _];
    [cbn; lia |].
  fold (FacialAnalysis.record ticks) in H6. rewrite <- Hlen in H6. fold r in H6.
  unfold Reasoning.facialAnalysisFactor. fold rate.
  eexists. split; [reflexivity |]. cbn [Reasoning.impact].
  assert (E3 : (length (FacialAnalysis.emotionDistribution
                          (FacialAnalysis.metrics r)) <? 3)%nat = false)
    by (apply Nat.ltb_ge; lia).
  assert (E4 : (length (FacialAnalysis.emotionDistribution
                          (FacialAnalysis.metrics r)) <? 4)%nat = false)
    by (apply Nat.ltb_ge; lia).
  rewrite E3, E4, !orb_false_r.
  split; [reflexivity |].
  change (FacialAnalysis.lowEyeContact (FacialAnalysis.indicators r))
    with (JS.lt rate 40).
  destruct (JS.lt rate 40); [now split |].
  destruct (JS.lt rate 60); split; discriminate.
Qed.

End ResultsProperties.

(** ** Emotion tallies *)

Section Tallies.

Local Open Scope float_scope.

Import FacialAnalysis.

Lemma adding_exact_200 : adding_exact 200 = true.
Proof. vm_compute. reflexivity. Qed.

Lemma adding_exact_spec (bound a b : nat) :
  adding_exact bound = true ->
  (a + b <= bound)%nat ->
  JS.of_nat a + JS.of_nat b = JS.of_nat (a + b).
Proof.
  unfold adding_exact. intros E H.
  pose proof (forall_upto_spec _ _ E a ltac:(lia)) as Ea. cbv beta in Ea.
  pose proof (forall_upto_spec _ _ Ea b ltac:(lia)) as Eb. cbv beta in Eb.
  now apply FloatAxioms.Leibniz.eqb_spec.
Qed.

Lemma of_nat_add (a b : nat) :
  (a + b <= 200)%nat -> JS.of_nat a + JS.of_nat b = JS.of_nat (a + b).
Proof. exact (adding_exact_spec 200 a b adding_exact_200). Qed.

Lemma tallies_total (c0 c1 c2 c3 c4 c5 : nat) :
  (c0 + c1 + c2 + c3 + c4 + c5 <= 200)%nat ->
  JS.sum (map snd (tallies c0 c1 c2 c3 c4 c5))
  = JS.of_nat (c0 + c1 + c2 + c3 + c4 + c5).
Proof.
  intros H. unfold JS.sum, tallies. cbn [map snd fold_left].
  change 0 with (JS.of_nat 0).
  rewrite !of_nat_add by lia. reflexivity.
Qed.

Lemma increment_tallies (i c0 c1 c2 c3 c4 c5 : nat) :
  (i < 6)%nat ->
  (c0 + c1 + c2 + c3 + c4 + c5 < 200)%nat ->
  exists c0' c1' c2' c3' c4' c5',
    increment (nth i emotions "undefined"%string) (tallies c0 c1 c2 c3 c4 c5)
    = tallies c0' c1' c2' c3' c4' c5'
    /\ (c0' + c1' + c2' + c3' + c4' + c5'
        = S (c0 + c1 + c2 + c3 + c4 + c5))%nat.
Proof.
  intros Hi Hc.
  do 6 (destruct i as [| i];
        [ cbn [nth emotions tallies increment String.eqb Ascii.eqb Bool.eqb];
          rewrite of_nat_succ by lia;
          do 6 eexists; split; [unfold tallies; reflexivity | lia] |]).
  lia.
Qed.

Lemma record_tallies (ticks : list Draws) :
  Forall (fun d => (r_emotion d < 6)%nat) ticks ->
  forall m c0 c1 c2 c3 c4 c5,
    emotionDetection m = tallies c0 c1 c2 c3 c4 c5 ->
    (c0 + c1 + c2 + c3 + c4 + c5 + length ticks <= 200)%nat ->
    exists c0' c1' c2' c3' c4' c5',
      emotionDetection (fold_left simulateFacialAnalysis ticks m)
      = tallies c0' c1' c2' c3' c4' c5'
      /\ (c0' + c1' + c2' + c3' + c4' + c5'
          = c0 + c1 + c2 + c3 + c4 + c5 + length ticks)%nat.
Proof.
  induction 1 as [| d ticks Hd _ IH]; intros m c0 c1 c2 c3 c4 c5 Hm Hc;
    cbn [fold_left length] in *.
  - exists c0, c1, c2, c3, c4, c5. split; [exact Hm | lia].
  - destruct (increment_tallies (r_emotion d) c0 c1 c2 c3 c4 c5 Hd
                ltac:(lia)) as (d0 & d1 & d2 & d3 & d4 & d5 & Hinc & Hsum).
    destruct (IH (simulateFacialAnalysis m d) d0 d1 d2 d3 d4 d5)
      as (e0 & e1 & e2 & e3 & e4 & e5 & He & Hes).
    + cbn [simulateFacialAnalysis emotionDetection]. now rewrite Hm.
    + lia.
    + exists e0, e1, e2, e3, e4, e5. split; [exact He | lia].
Qed.

(** X19: in a recording of at most 200 ticks (drawn emotion indices
    below 6), every tick is counted in exactly one tally: the tallies are
    whole counts that add up to the number of ticks, and the total tally
    computed at the end is that number. *)
Theorem total_tally_is_tick_count (ticks : list Draws) :
  (length ticks <= 200)%nat ->
  Forall (fun d => (r_emotion d < 6)%nat) ticks ->
  totalEmotions (record ticks) = JS.of_nat (length ticks)
  /\ exists c0 c1 c2 c3 c4 c5,
       emotionDetection (record ticks) = tallies c0 c1 c2 c3 c4 c5
       /\ (c0 + c1 + c2 + c3 + c4 + c5 = length ticks)%nat.
Proof.
  intros Hlen Hall.
  destruct (record_tallies ticks Hall initialMetrics 0 0 0 0 0 0
              eq_refl ltac:(cbn; lia))
    as (c0 & c1 & c2 & c3 & c4 & c5 & He & Hs).
  cbn [Nat.add] in Hs. fold (record ticks) in He.
  split.
  - unfold totalEmotions. rewrite He, tallies_total by lia. now rewrite Hs.
  - now exists c0, c1, c2, c3, c4, c5.
Qed.

Lemma total_tally_is_tick_count_witness :
  totalEmotions
    (record [ {| r_emotion := 3; r_eyeContact := 0.9; r_micro := 0.5;
                 r_microIndex := 0; r_symmetry := 0.5 |};
              {| r_emotion := 0; r_eyeContact := 0.1; r_micro := 0.5;
                 r_microIndex := 0; r_symmetry := 0.5 |} ])
  = 2.
Proof.
  apply (total_tally_is_tick_count
           [ {| r_emotion := 3; r_eyeContact := 0.9; r_micro := 0.5;
                r_microIndex := 0; r_symmetry := 0.5 |};
             {| r_emotion := 0; r_eyeContact := 0.1; r_micro := 0.5;
                r_microIndex := 0; r_symmetry := 0.5 |} ]).
  - simpl. lia.
  - repeat constructor.
Defined.

End Tallies.

(** ** Completion events and the handlers that deliver them *)

Section CompletionEvents.

Import Session.

Lemma handlerOf_on_screen (s : State) (d : StageData) :
  handleStageComplete s d = LateCompletion.handlerOf (currentStage s) s d.
Proof. destruct s; reflexivity. Qed.

Lemma handlerOf_total (captured : AssessmentStage) (s : State)
  (d : StageData) :
  exists s',
    LateCompletion.handlerOf captured s d = Some s'
    /\ assessmentData s' = <[captured := d]> (assessmentData s)
    /\ currentStage s'
       = match captured with
         | questionnaire => eyeTracking
         | eyeTracking => facialAnalysis
         | facialAnalysis => results
         | intro | results => questionnaire
         end.
Proof.
  unfold LateCompletion.handlerOf.
  destruct captured; eexists; (split; [reflexivity |]); split; reflexivity.
Qed.

Lemma builds_origin (captured : AssessmentStage) (d : StageData) :
  Flow.builds (Flow.renderCurrentStage captured) d = true ->
  origin d = captured.
Proof. destruct captured, d; cbn; congruence. Qed.

Lemma late_reachable_invariant (s : State) :
  LateCompletion.reachable s ->
  currentStage s <> intro
  /\ forall k d, assessmentData s !! k = Some d -> origin d = k.
Proof.
  induction 1 as [| s c d s' _ [Hne Horigin] _ Hb Hstep].
  - split; [discriminate |].
    intros k d Hk. cbn in Hk. now rewrite lookup_empty in Hk.
  - pose proof (builds_origin c d Hb) as Ho.
    destruct (handlerOf_total c s d) as (s'' & E & Hdata & Hcur).
    rewrite E in Hstep. injection Hstep as <-.
    split.
    + rewrite Hcur. destruct c; discriminate.
    + intros k d' Hk. rewrite Hdata in Hk.
      apply lookup_insert_Some in Hk as [[<- <-] | [_ Hk]];
        [exact Ho | now apply Horigin].
Qed.

Lemma late_reachable_results :
  LateCompletion.reachable
    {| currentStage := results;
       assessmentData := dataWith 6 18 0.75 0.8;
       progress := 100%float |}.
Proof.
  apply (LateCompletion.reachable_complete
           {| currentStage := facialAnalysis;
              assessmentData :=
                <[eyeTracking := eyeTrackingWith 0.75]>
                  (<[questionnaire := questionnaireWith 6 18]> ∅);
              progress := updateProgress eyeTracking |}
           facialAnalysis (facialAnalysisWith 0.8));
    [| now left | reflexivity | reflexivity].
  apply (LateCompletion.reachable_complete
           {| currentStage := eyeTracking;
              assessmentData := <[questionnaire := questionnaireWith 6 18]> ∅;
              progress := updateProgress questionnaire |}
           eyeTracking (eyeTrackingWith 0.75));
    [| now left | reflexivity | reflexivity].
  apply (LateCompletion.reachable_complete (begin initial)
           questionnaire (questionnaireWith 6 18));
    [| now left | reflexivity | reflexivity].
  apply LateCompletion.reachable_begin.
Qed.

(** C3, as stated, fails: when the results are shown, a second completion
    of the facial-analysis component (its timeout is never cleared, so a
    recording stopped twice completes twice) is an event for a stage other
    than the current one; it is not rejected, and it replaces the stored
    facial-analysis result. *)
Lemma late_completion_counterexample :
  let s := {| currentStage := results;
              assessmentData := dataWith 6 18 0.75 0.8;
              progress := 100%float |} in
  let d := facialAnalysisWith 0.2 in
  LateCompletion.reachable s /\
  assessmentData s !! facialAnalysis = Some (facialAnalysisWith 0.8) /\
  Flow.builds (Flow.renderCurrentStage facialAnalysis) d = true /\
  origin d <> currentStage s /\
  exists s',
    LateCompletion.handlerOf facialAnalysis s d = Some s'
    /\ assessmentData s' !! facialAnalysis = Some d
    /\ assessmentData s' <> assessmentData s
    /\ currentStage s' = results.
Proof.
  intros s d.
  split; [exact late_reachable_results |].
  split; [reflexivity |]. split; [reflexivity |]. split; [discriminate |].
  eexists. split; [reflexivity |]. split; [reflexivity |].
  split; [| reflexivity].
  intros H.
  apply (f_equal (fun m => Prim2SF (JS.or0_opt
                                     (Results.riskScore
                                        (m !! facialAnalysis))))) in H.
  vm_compute in H. discriminate H.
Qed.

(** C3 (amended): a completion event is never rejected and there is no
    invalid-transition condition.  [handleStageComplete] receives only the
    payload; the handler held by a stage's component stores it under that
    component's own stage (the stage current when the handler was
    created), leaves every other entry, and sets the pointer to the stage
    after that one ([results] after the last).  So a completion arriving
    after the pointer has moved on replaces the stored result of the
    emitting stage.  In every state reached, late completions included,
    each stored payload was built by the component of its own key. *)
Theorem completion_never_rejected :
  (forall (captured : AssessmentStage) (s : State) (d : StageData),
     exists s',
       LateCompletion.handlerOf captured s d = Some s'
       /\ assessmentData s' !! captured = Some d
       /\ (forall k, k <> captured ->
                     assessmentData s' !! k = assessmentData s !! k)
       /\ currentStage s'
          = match captured with
            | questionnaire => eyeTracking
            | eyeTracking => facialAnalysis
            | facialAnalysis => results
            | intro | results => questionnaire
            end)
  /\ (forall (s : State) (d : StageData),
        handleStageComplete s d
        = LateCompletion.handlerOf (currentStage s) s d)
  /\ (forall s : State,
        LateCompletion.reachable s ->
        currentStage s <> intro
        /\ forall k d, assessmentData s !! k = Some d -> origin d = k).
Proof.
  split; [| split; [exact handlerOf_on_screen | exact late_reachable_invariant]].
  intros c s d.
  destruct (handlerOf_total c s d) as (s' & E & Hdata & Hcur).
  exists s'. split; [exact E |]. rewrite Hdata.
  split; [apply lookup_insert_eq |].
  split; [| exact Hcur].
  intros k Hk. apply lookup_insert_ne. congruence.
Qed.

Lemma completion_never_rejected_witness :
  origin (facialAnalysisWith 0.8) = facialAnalysis.
Proof.
  exact (proj2 (proj2 (proj2 completion_never_rejected)
                  {| currentStage := results;
                     assessmentData := dataWith 6 18 0.75 0.8;
                     progress := 100%float |}
                  late_reachable_results)
               facialAnalysis (facialAnalysisWith 0.8) eq_refl).
Defined.

End CompletionEvents.

(** ** Facial-analysis classifier: flags from the tallies *)

Section FacialShares.

Local Open Scope float_scope.

Import FacialAnalysis.

Lemma shares_ok_200 : shares_ok 200 = true.
Proof. vm_compute. reflexivity. Qed.

Lemma shares_ok_spec (bound c n : nat) :
  shares_ok bound = true ->
  (c <= n <= bound)%nat ->
  JS.gt (if JS.gt (JS.of_nat n) 0
         then JS.of_nat c / JS.of_nat n * 100 else 0) 10
  = (n <? 10 * c)%nat
  /\ JS.gt (JS.of_nat c / JS.of_nat n) 0.7 = (7 * n <? 10 * c)%nat
  /\ JS.gt (JS.of_nat n) 0 = (0 <? n)%nat.
Proof.
  unfold shares_ok. intros E H.
  pose proof (forall_upto_spec _ _ E n ltac:(lia)) as En. cbv beta in En.
  pose proof (forall_upto_spec _ _ En c ltac:(lia)) as Ec. cbv beta in Ec.
  unfold share_ok in Ec.
  apply andb_prop in Ec as [Ec H3]. apply andb_prop in Ec as [H1 H2].
  apply Bool.eqb_prop in H1, H2, H3. now repeat split.
Qed.

Lemma share_tests (c n : nat) :
  (c <= n <= 200)%nat ->
  JS.gt (if JS.gt (JS.of_nat n) 0
         then JS.of_nat c / JS.of_nat n * 100 else 0) 10
  = (n <? 10 * c)%nat
  /\ JS.gt (JS.of_nat c / JS.of_nat n) 0.7 = (7 * n <? 10 * c)%nat
  /\ JS.gt (JS.of_nat n) 0 = (0 <? n)%nat.
Proof. exact (shares_ok_spec 200 c n shares_ok_200). Qed.

Lemma filter_map_length {A B} (p : B -> bool) (f : A -> B) (l : list A) :
  length (List.filter p (map f l))
  = length (List.filter (fun x => p (f x)) l).
Proof.
  induction l as [| x l IH]; cbn [map List.filter]; [reflexivity |].
  destruct (p (f x)); cbn [length]; now rewrite IH.
Qed.

Lemma distribution_from_tallies (m : FacialMetrics) :
  emotionDistribution (metrics (stopRecording m))
  = map (fun kc =>
           {| emotion := fst kc;
              percentage :=
                if JS.gt (JS.sum (map snd (emotionDetection m))) 0
                then snd kc / JS.sum (map snd (emotionDetection m)) * 100
                else 0 |})
        (emotionDetection m).
Proof.
  unfold stopRecording, totalEmotions; cbn [metrics emotionDistribution].
  apply map_ext. intros [k c]. reflexivity.
Qed.

Lemma indicators_from_accumulator (m : FacialMetrics) :
  indicators (stopRecording m)
  = {| limitedEmotionalRange :=
         (length
            (List.filter
               (fun kc =>
                  JS.gt (if JS.gt (JS.sum (map snd (emotionDetection m))) 0
                         then snd kc / JS.sum (map snd (emotionDetection m))
                              * 100
                         else 0) 10)
               (emotionDetection m)) <? 3)%nat;
       lowEyeContact := JS.lt (eyeContactFrequency m / 45 * 100) 40;
       reducedMicroExpressions := (length (microExpressions m) <? 2)%nat;
       facialAsymmetry := JS.lt (symmetryScore m) 0.8;
       neutralExpressionDominance :=
         JS.gt (JS.toNumber (get "neutral" (emotionDetection m))
                / JS.sum (map snd (emotionDetection m))) 0.7 |}.
Proof.
  unfold stopRecording, totalEmotions; cbn [indicators].
  f_equal. f_equal.
  rewrite filter_map_length.
  f_equal. apply filter_ext. intros [k c]. reflexivity.
Qed.

Lemma flags_of_tallies (m : FacialMetrics) (c0 c1 c2 c3 c4 c5 : nat) :
  emotionDetection m = tallies c0 c1 c2 c3 c4 c5 ->
  (c0 + c1 + c2 + c3 + c4 + c5 <= 200)%nat ->
  let n := (c0 + c1 + c2 + c3 + c4 + c5)%nat in
  neutralExpressionDominance (indicators (stopRecording m))
  = (7 * n <? 10 * c0)%nat
  /\ limitedEmotionalRange (indicators (stopRecording m))
     = (length (List.filter (fun c => (n <? 10 * c)%nat)
                            [c0; c1; c2; c3; c4; c5]) <? 3)%nat
  /\ map percentage (emotionDistribution (metrics (stopRecording m)))
     = map (fun c => if (0 <? n)%nat
                     then JS.of_nat c / JS.of_nat n * 100 else 0)
           [c0; c1; c2; c3; c4; c5].
Proof.
  intros He Hn n.
  destruct (share_tests c0 n ltac:(lia)) as (A0 & B0 & G).
  destruct (share_tests c1 n ltac:(lia)) as (A1 & _ & _).
  destruct (share_tests c2 n ltac:(lia)) as (A2 & _ & _).
  destruct (share_tests c3 n ltac:(lia)) as (A3 & _ & _).
  destruct (share_tests c4 n ltac:(lia)) as (A4 & _ & _).
  destruct (share_tests c5 n ltac:(lia)) as (A5 & _ & _).
  rewrite indicators_from_accumulator, distribution_from_tallies, He.
  rewrite tallies_total by exact Hn. fold n.
  cbn [neutralExpressionDominance limitedEmotionalRange].
  change (get "neutral" (tallies c0 c1 c2 c3 c4 c5))
    with (Some (JS.of_nat c0)).
  cbn [JS.toNumber tallies map List.filter snd fst percentage].
  rewrite A0, A1, A2, A3, A4, A5, B0, G.
  repeat split.
  destruct (n <? 10 * c0)%nat, (n <? 10 * c1)%nat, (n <? 10 * c2)%nat,
    (n <? 10 * c3)%nat, (n <? 10 * c4)%nat, (n <? 10 * c5)%nat;
    reflexivity.
Qed.

(** C7: the facial classifier computes exactly five flags from the
    accumulator.  With total the sum of the emotion tallies and the share
    of a label its tally / total * 100 (0 when the total is not positive):
    limitedEmotionalRange iff fewer than 3 labels have a share above 10;
    lowEyeContact iff eyeContactFrequency / 45 * 100 < 40;
    reducedMicroExpressions iff fewer than 2 micro-expressions are stored,
    which are pairwise distinct in every recording; facialAsymmetry iff
    the symmetry score is < 0.8; neutralExpressionDominance iff
    neutral / total > 0.7.  All are computed for every accumulator; when
    every tally is 0 the shares are 0 and neutralExpressionDominance is
    false.  In a recording of n ticks (at most 200), the tallies are
    whole counts adding up to n, a share is above 10 iff 10 * count > n,
    and neutral dominates iff 10 * neutral > 7 * n. *)
Theorem facial_indicators (m : FacialMetrics) :
  let r := stopRecording m in
  let total := JS.sum (map snd (emotionDetection m)) in
  let share := fun count : float =>
                 if JS.gt total 0 then count / total * 100 else 0 in
  emotionDistribution (metrics r)
  = map (fun kc => {| emotion := fst kc; percentage := share (snd kc) |})
        (emotionDetection m)
  /\ eyeContactRate (metrics r) = eyeContactFrequency m / 45 * 100
  /\ metrics_microExpressions (metrics r) = microExpressions m
  /\ facialSymmetry (metrics r) = symmetryScore m
  /\ indicators r
     = {| limitedEmotionalRange :=
            (length (List.filter (fun kc => JS.gt (share (snd kc)) 10)
                                 (emotionDetection m)) <? 3)%nat;
          lowEyeContact := JS.lt (eyeContactFrequency m / 45 * 100) 40;
          reducedMicroExpressions := (length (microExpressions m) <? 2)%nat;
          facialAsymmetry := JS.lt (symmetryScore m) 0.8;
          neutralExpressionDominance :=
            JS.gt (JS.toNumber (get "neutral" (emotionDetection m)) / total)
                  0.7 |}
  /\ length (values (indicators r)) = 5%nat
  /\ (forall ticks, NoDup (microExpressions (record ticks)))
  /\ (Forall (fun kc => snd kc = 0) (emotionDetection m) ->
      neutralExpressionDominance (indicators r) = false
      /\ Forall (fun e => percentage e = 0)
                (emotionDistribution (metrics r)))
  /\ (forall ticks,
        (length ticks <= 200)%nat ->
        Forall (fun d => (r_emotion d < 6)%nat) ticks ->
        let n := length ticks in
        let rr := stopRecording (record ticks) in
        exists c0 c1 c2 c3 c4 c5,
          emotionDetection (record ticks) = tallies c0 c1 c2 c3 c4 c5
          /\ (c0 + c1 + c2 + c3 + c4 + c5 = n)%nat
          /\ neutralExpressionDominance (indicators rr)
             = (7 * n <? 10 * c0)%nat
          /\ limitedEmotionalRange (indicators rr)
             = (length (List.filter (fun c => (n <? 10 * c)%nat)
                                    [c0; c1; c2; c3; c4; c5]) <? 3)%nat
          /\ map percentage (emotionDistribution (metrics rr))
             = map (fun c => if (0 <? n)%nat
                             then JS.of_nat c / JS.of_nat n * 100 else 0)
                   [c0; c1; c2; c3; c4; c5]).
Proof.
  intros r total share.
  split; [apply distribution_from_tallies |].
  split; [reflexivity |]. split; [reflexivity |]. split; [reflexivity |].
  split; [apply indicators_from_accumulator |].
  split; [reflexivity |]. split; [exact record_NoDup |].
  split.
  - intros Hz. pose proof (totalEmotions_zero m Hz) as Ht. split.
    + unfold r, stopRecording; cbn [indicators neutralExpressionDominance].
      rewrite Ht.
      destruct (get_zeros "neutral" _ Hz) as [-> | ->];
        vm_compute; reflexivity.
    + unfold r, stopRecording; cbn [metrics emotionDistribution].
      rewrite Ht. change (JS.gt 0 0) with false.
      clear. induction (emotionDetection m) as [| [k c] l IH]; cbn [map];
        constructor; auto.
  - intros ticks Hlen Hall n rr.
    destruct (record_tallies ticks Hall initialMetrics 0 0 0 0 0 0
                eq_refl ltac:(cbn; lia))
      as (c0 & c1 & c2 & c3 & c4 & c5 & He & Hs).
    cbn [Nat.add] in Hs. fold (record ticks) in He.
    exists c0, c1, c2, c3, c4, c5.
    split; [exact He |]. split; [exact Hs |].
    destruct (flags_of_tallies (record ticks) c0 c1 c2 c3 c4 c5 He
                ltac:(lia)) as (Hn & Hl & Hp).
    cbv zeta in Hn, Hl, Hp. rewrite Hs in Hn, Hl, Hp.
    now repeat split.
Qed.

Lemma facial_indicators_witness :
  neutralExpressionDominance (indicators (stopRecording initialMetrics))
  = false
  /\ exists c0 c1 c2 c3 c4 c5,
       emotionDetection
         (record [ {| r_emotion := 0; r_eyeContact := 0.9; r_micro := 0.5;
                      r_microIndex := 0; r_symmetry := 0.5 |} ])
       = tallies c0 c1 c2 c3 c4 c5
       /\ (c0 + c1 + c2 + c3 + c4 + c5 = 1)%nat.
Proof.
  destruct (facial_indicators initialMetrics)
    as (_ & _ & _ & _ & _ & _ & _ & Hzero & Hrec).
  split.
  - apply Hzero. repeat constructor.
  - destruct (Hrec [ {| r_emotion := 0; r_eyeContact := 0.9; r_micro := 0.5;
                        r_microIndex := 0; r_symmetry := 0.5 |} ])
      as (c0 & c1 & c2 & c3 & c4 & c5 & He & Hs & _).
    + simpl. lia.
    + repeat constructor.
    + now exists c0, c1, c2, c3, c4, c5.
Defined.

(** With tallies 8, 8, 8, 7, 7, 7 every share is above 10, so the range
    is not limited; with 1 neutral tick out of 100 neutral does not
    dominate. *)
Lemma facial_share_examples :
  limitedEmotionalRange
    (indicators (stopRecording
                   {| emotionDetection := tallies 8 8 8 7 7 7;
                      facialLandmarks := 468; eyeContactFrequency := 20;
                      microExpressions := []; symmetryScore := 0.9 |}))
  = false
  /\ neutralExpressionDominance
       (indicators (stopRecording
                      {| emotionDetection := tallies 1 99 0 0 0 0;
                         facialLandmarks := 468; eyeContactFrequency := 20;
                         microExpressions := []; symmetryScore := 0.9 |}))
     = false.
Proof. split; vm_compute; reflexivity. Qed.

End FacialShares.
